(** * brainMRI.py: surface extraction and the two exporters

    A shallow embedding of [src/brainMRI.py].  Python floats are IEEE
    binary64 numbers and are modelled by Rocq's primitive floats; numpy
    arrays are a shape with the row-major list of their elements; the
    mapping handed from the extractor to the exporters is the
    [defaultdict(list)] of the script, kept as an association list in
    insertion order.  The calls into scipy, scikit-image and nibabel are
    parameters of the development: nothing is assumed about what they
    compute unless a statement says so. *)

From Stdlib Require Import List String ZArith Lia Bool.
From Stdlib Require Import Floats.PrimFloat Floats.SpecFloat Floats.FloatOps.
From Stdlib Require Import Numbers.Cyclic.Int63.Uint63.
Import ListNotations.

Local Open Scope string_scope.
Local Open Scope list_scope.

(* Decimal literals denote the nearest binary64 value, as in Python. *)
Set Warnings "-inexact-float".

(** ** Exceptions and the two monads of the script *)

Inductive exn : Type :=
| KeyError (key : string)
| ValueError (msg : string)
| NameError (name : string)
| IndexError (msg : string)
| OSError (path : string).

Inductive result (A : Type) : Type :=
| Ok (a : A)
| Raise (e : exn).
Arguments Ok {A} a.
Arguments Raise {A} e.

Definition rbind {A B} (r : result A) (k : A -> result B) : result B :=
  match r with
  | Ok a => k a
  | Raise e => Raise e
  end.

(** A statement sequence that runs in a frame [S] (the objects it can
    mutate) and either returns or raises; the frame reached is kept in
    both cases, so that what was done before a raise stays visible. *)
Definition M (S A : Type) : Type := S -> result A * S.

Definition ret {S A} (a : A) : M S A := fun s => (Ok a, s).
Definition bind {S A B} (m : M S A) (k : A -> M S B) : M S B :=
  fun s => match m s with
           | (Ok a, s') => k a s'
           | (Raise e, s') => (Raise e, s')
           end.
Definition get {S} : M S S := fun s => (Ok s, s).
Definition modify {S} (f : S -> S) : M S unit := fun s => (Ok tt, f s).
Definition lift {S A} (r : result A) : M S A := fun s => (r, s).

Declare Scope py_scope.
Delimit Scope py_scope with py.
Notation "x <- m ;; k" := (bind m (fun x => k))
  (at level 61, m at next level, right associativity) : py_scope.
Notation "m ;;; k" := (bind m (fun _ => k))
  (at level 61, right associativity) : py_scope.
Notation "x <~ r ;; k" := (rbind r (fun x => k))
  (at level 61, r at next level, right associativity) : py_scope.
Notation "' pat <- m ;; k" := (bind m (fun v => match v with pat => k end))
  (at level 61, pat pattern, m at next level, right associativity) : py_scope.
Notation "' pat <~ r ;; k" := (rbind r (fun v => match v with pat => k end))
  (at level 61, pat pattern, r at next level, right associativity) : py_scope.

(** [for x in xs: body x], stopping at the first raise. *)
Fixpoint for_each {S A} (xs : list A) (body : A -> M S unit) : M S unit :=
  match xs with
  | [] => ret tt
  | x :: xs' => bind (body x) (fun _ => for_each xs' body)
  end.

(** The same loop for a body that threads an accumulator and may raise. *)
Fixpoint fold_result {A B} (body : B -> A -> result B) (xs : list A) (acc : B)
  : result B :=
  match xs with
  | [] => Ok acc
  | x :: xs' => rbind (body acc x) (fold_result body xs')
  end.

(** ** numpy arrays *)

Record ndarray (A : Type) : Type := mk_ndarray {
  shape : list nat;
  data : list A
}.
Arguments mk_ndarray {A} shape data.
Arguments shape {A} n.
Arguments data {A} n.

Definition amap {A B} (f : A -> B) (a : ndarray A) : ndarray B :=
  mk_ndarray (shape a) (map f (data a)).

(** [int -> float64], exact on the integers the script converts. *)
Definition float_of_Z (z : Z) : float :=
  if (z <? 0)%Z then PrimFloat.opp (PrimFloat.of_uint63 (Uint63.of_Z (- z)))
  else PrimFloat.of_uint63 (Uint63.of_Z z).

(** [float64 -> integer], rounding toward zero as a C cast does; NaN and
    the infinities have no integer value. *)
Definition float_trunc (f : float) : option Z :=
  match Prim2SF f with
  | S754_zero _ => Some 0%Z
  | S754_finite s m e =>
      let mag := if (0 <=? e)%Z then (Z.pos m * 2 ^ e)%Z
                 else (Z.pos m / 2 ^ (- e))%Z in
      Some (if s then (- mag)%Z else mag)
  | S754_infinity _ => None
  | S754_nan => None
  end.

(** [x.astype(np.uint8)] on one float64 element: the truncated value
    reduced modulo 2^8 (0 where there is no integer value). *)
Definition float_to_uint8 (f : float) : Z :=
  match float_trunc f with
  | Some z => (z mod 256)%Z
  | None => 0%Z
  end.

Definition bool_to_uint8 (b : bool) : Z := if b then 1%Z else 0%Z.
Definition bool_to_float (b : bool) : float := if b then 1%float else 0%float.
Definition uint8_to_float (z : Z) : float := float_of_Z z.

(** [seg_data == label]: elementwise IEEE equality with the label
    converted to float64. *)
Definition array_eq_scalar (a : ndarray float) (label : Z) : ndarray bool :=
  amap (fun x => PrimFloat.eqb x (float_of_Z label)) a.

(** [mri_data > brain_threshold]. *)
Definition array_gt_scalar (a : ndarray float) (t : float) : ndarray bool :=
  amap (fun x => PrimFloat.ltb t x) a.

(** [np.sum] of a uint8 array: numpy accumulates in its 64-bit unsigned
    integer, so the sum is taken modulo 2^64. *)
Definition np_sum (a : ndarray Z) : Z :=
  (fold_right Z.add 0 (data a) mod 2 ^ 64)%Z.

(** Every [n]-th element of a row-major list, starting at offset [c]:
    the elements whose last index is [c] when the last axis has length
    [n]. *)
Fixpoint every_nth {A} (fuel : nat) (n c : nat) (l : list A) : list A :=
  match fuel with
  | O => []
  | S fuel' =>
      match skipn c l with
      | [] => []
      | x :: _ => x :: every_nth fuel' n c (skipn n l)
      end
  end.

(** [a[:, :, :, c]]: four indices need a four-dimensional array, and [c]
    must be inside the last axis. *)
Definition index_last_axis4 (a : ndarray float) (c : nat) : result (ndarray float) :=
  match shape a with
  | [n0; n1; n2; n3] =>
      if (c <? n3)%nat
      then Ok (mk_ndarray [n0; n1; n2]
                 (every_nth (List.length (data a)) n3 c (data a)))
      else Raise (IndexError "index out of bounds for axis 3")
  | _ => Raise (IndexError "too many indices for array")
  end.

(** ** Surfaces, surface entries and the mapping *)

Definition vertex : Type := float * float * float.
Definition face : Type := Z * Z * Z.

(** The 4-tuple [(verts, faces, color, opacity)] stored under a name. *)
Definition entry : Type := list vertex * list face * string * float.

(** What a slot of the mapping can hold: a surface entry, or the empty
    list that [defaultdict(list)] stores when a missing key is read. *)
Inductive value : Type :=
| Tuple4 (e : entry)
| EmptyList.

Inductive factory : Type := list_factory.

(** A dict in insertion order; [default_factory] is [Some list_factory]
    for [defaultdict(list)] and [None] for a plain dict. *)
Record mapping : Type := mk_mapping {
  default_factory : option factory;
  items : list (string * value)
}.

Definition keys (md : mapping) : list string := map fst (items md).

Fixpoint assoc (k : string) (l : list (string * value)) : option value :=
  match l with
  | [] => None
  | (k', v) :: l' => if String.eqb k k' then Some v else assoc k l'
  end.

Definition lookup (md : mapping) (k : string) : option value :=
  assoc k (items md).

Definition contains (md : mapping) (k : string) : bool :=
  match lookup md k with Some _ => true | None => false end.

Fixpoint assoc_set (k : string) (v : value) (l : list (string * value))
  : list (string * value) :=
  match l with
  | [] => [(k, v)]
  | (k', v') :: l' =>
      if String.eqb k k' then (k', v) :: l' else (k', v') :: assoc_set k v l'
  end.

(** [md[k] = v]: rebinds [k] where it stands, or appends it. *)
Definition setitem (md : mapping) (k : string) (v : value) : mapping :=
  mk_mapping (default_factory md) (assoc_set k v (items md)).

(** [md[k]]: a missing key raises [KeyError] in a plain dict; in a
    [defaultdict(list)] it is first bound to a fresh [[]], which is the
    value returned. *)
Definition getitem (md : mapping) (k : string) : result value * mapping :=
  match lookup md k with
  | Some v => (Ok v, md)
  | None =>
      match default_factory md with
      | Some list_factory => (Ok EmptyList, setitem md k EmptyList)
      | None => (Raise (KeyError k), md)
      end
  end.

(** [a, b, c, d = v]. *)
Definition unpack4 (v : value) : result entry :=
  match v with
  | Tuple4 e => Ok e
  | EmptyList => Raise (ValueError "not enough values to unpack (expected 4, got 0)")
  end.

Definition empty_defaultdict : mapping := mk_mapping (Some list_factory) [].

Definition is_tuple4 (v : value) : bool :=
  match v with Tuple4 _ => true | EmptyList => false end.

(** Every slot holds a surface entry. *)
Definition all_entries (md : mapping) : bool :=
  forallb (fun kv => is_tuple4 (snd kv)) (items md).

Fixpoint distinct (l : list string) : bool :=
  match l with
  | [] => true
  | k :: l' => negb (existsb (String.eqb k) l') && distinct l'
  end.

(** ** Module constants *)

Definition COLOR_MAP : list (string * (float * float * float)) :=
  [ ("pink", (0.9, 0.7, 0.7));
    ("red", (1.0, 0.0, 0.0));
    ("yellow", (0.9, 0.9, 0.5));
    ("lightblue", (0.7, 0.7, 0.9)) ]%float.

Fixpoint color_assoc (c : string) (l : list (string * (float * float * float)))
  : option (float * float * float) :=
  match l with
  | [] => None
  | (c', rgb) :: l' => if String.eqb c c' then Some rgb else color_assoc c l'
  end.

(** [COLOR_MAP[color]] on the plain dict. *)
Definition COLOR_MAP_getitem (c : string) : result (float * float * float) :=
  match color_assoc c COLOR_MAP with
  | Some rgb => Ok rgb
  | None => Raise (KeyError c)
  end.

Definition DOWNSAMPLE_FACTOR : float := 0.6%float.

Definition tumor_labels : list (Z * (string * string * float)) :=
  [ (1%Z, ("Edema", "yellow", 0.3%float));
    (2%Z, ("Necrotic", "red", 0.8%float));
    (3%Z, ("Enhancing", "lightblue", 0.3%float)) ].

(** The module globals a function body reads; [None] is an unbound name. *)
Record globals : Type := mk_globals {
  seg_path : option string
}.

Definition read_seg_path (g : globals) : result string :=
  match seg_path g with
  | Some p => Ok p
  | None => Raise (NameError "seg_path")
  end.

(** The two element types the script passes to [marching_cubes]. *)
Inductive volume : Type :=
| VFloat (a : ndarray float)
| VUInt8 (a : ndarray Z).

(** [verts, faces, normals, values]. *)
Definition mc_result : Type :=
  list vertex * list face * list vertex * list float.

(** ** The extractor and the script body up to the exporters *)

Section Pipeline.

Local Open Scope py_scope.

(** The library calls of the script: [nib.load(p).get_fdata()],
    [scipy.ndimage.zoom], [skimage.measure.marching_cubes] and
    [skimage.filters.threshold_otsu].  Each may raise. *)
Variable nib_load_get_fdata : string -> result (ndarray float).
Variable zoom : ndarray float -> float -> result (ndarray float).
Variable marching_cubes : volume -> float -> result mc_result.
Variable threshold_otsu : ndarray float -> result float.

(** [(seg_data == label).astype(np.uint8)] *)
Definition label_mask (seg_data : ndarray float) (label : Z) : ndarray Z :=
  amap bool_to_uint8 (array_eq_scalar seg_data label).

(** Lines 35-36: zoom of the float-cast mask, then marching cubes on the
    zoomed float volume. *)
Definition tumor_surface (mask : ndarray Z) : result mc_result :=
  small_volume <~ zoom (amap uint8_to_float mask) DOWNSAMPLE_FACTOR ;;
  marching_cubes (VFloat small_volume) 0.5%float.

(** Lines 137-139: zoom of the float-cast mask, then marching cubes on
    the zoomed volume cast to uint8. *)
Definition brain_surface (brain_mask : ndarray bool) : result mc_result :=
  small_volume <~ zoom (amap bool_to_float brain_mask) DOWNSAMPLE_FACTOR ;;
  marching_cubes (VUInt8 (amap float_to_uint8 small_volume)) 0.5%float.

(** One turn of the loop over [tumor_labels.items()]. *)
Definition get_tumors_step (seg_data : ndarray float) (tumor_data : mapping)
    (item : Z * (string * string * float)) : result mapping :=
  let '(label, (name, color, opacity)) := item in
  let mask := label_mask seg_data label in
  if (np_sum mask =? 0)%Z then Ok tumor_data
  else
    '(verts, faces, _, _) <~ tumor_surface mask ;;
    Ok (setitem tumor_data name (Tuple4 (verts, faces, color, opacity))).

Definition get_tumors (g : globals) (tumor_path : string) : result mapping :=
  p <~ read_seg_path g ;;
  seg_data <~ nib_load_get_fdata p ;;
  fold_result (get_tumors_step seg_data) tumor_labels empty_defaultdict.

Definition main_seg_path : string :=
  "Task01_BrainTumour\labelsTr\BRATS_001.nii.gz".
Definition main_mri_path : string :=
  "Task01_BrainTumour/imagesTr/BRATS_001.nii.gz".
Definition main_globals : globals := mk_globals (Some main_seg_path).

(** Lines 128-141 of the script body: the mapping that both exporters
    receive. *)
Definition main_mesh_data : result mapping :=
  tumor_data <~ get_tumors main_globals main_seg_path ;;
  mri <~ nib_load_get_fdata main_mri_path ;;
  mri_data <~ index_last_axis4 mri 3 ;;
  brain_threshold <~ threshold_otsu mri_data ;;
  let brain_mask := array_gt_scalar mri_data brain_threshold in
  '(verts, faces, _, _) <~ brain_surface brain_mask ;;
  Ok (setitem tumor_data "brain" (Tuple4 (verts, faces, "pink", 0.2%float))).

End Pipeline.

(** The index-bounds invariant of a surface. *)
Definition face_in_bounds (n : nat) (f : face) : Prop :=
  let '(a, b, c) := f in
  (0 <= a < Z.of_nat n)%Z /\ (0 <= b < Z.of_nat n)%Z /\ (0 <= c < Z.of_nat n)%Z.

Definition index_bounds (verts : list vertex) (faces : list face) : Prop :=
  Forall (face_in_bounds (List.length verts)) faces.

(** ** The web exporter *)

Module go.

Record Mesh3d : Type := mk_Mesh3d {
  x : list float;
  y : list float;
  z : list float;
  i : list Z;
  j : list Z;
  k : list Z;
  color : string;
  opacity : float;
  name : string
}.

(** [go.Figure(data = data)] *)
Record Figure : Type := mk_Figure { data : list Mesh3d }.

End go.

(** What [create_3d_html] can change: the mapping it is given, its
    local list [data], and the files it writes. *)
Record html_frame : Type := mk_html_frame {
  mesh_data : mapping;
  html_data : list go.Mesh3d;
  html_files : list (string * go.Figure)
}.

Definition html_init (md : mapping) : html_frame := mk_html_frame md [] [].

Definition col0 {A} (r : A * A * A) : A := fst (fst r).
Definition col1 {A} (r : A * A * A) : A := snd (fst r).
Definition col2 {A} (r : A * A * A) : A := snd r.

(** The [go.Mesh3d(...)] call shared by both [append]s. *)
Definition Mesh3d_of (vertices : list vertex) (faces : list face)
    (color : string) (opacity : float) (name : string) : go.Mesh3d :=
  go.mk_Mesh3d (map col0 vertices) (map col1 vertices) (map col2 vertices)
               (map col0 faces) (map col1 faces) (map col2 faces)
               color opacity name.

Definition mesh_data_getitem (key : string) : M html_frame value :=
  fun s =>
    let '(r, md') := getitem (mesh_data s) key in
    (r, mk_html_frame md' (html_data s) (html_files s)).

Definition data_append (m : go.Mesh3d) : M html_frame unit :=
  modify (fun s => mk_html_frame (mesh_data s) (html_data s ++ [m]) (html_files s)).

Definition write_html (path : string) (fig : go.Figure) : M html_frame unit :=
  modify (fun s => mk_html_frame (mesh_data s) (html_data s)
                                 (html_files s ++ [(path, fig)])).

(** The body of the loop over [mesh_data.keys()]. *)
Definition html_body (name : string) : M html_frame unit :=
  (if String.eqb name "brain" then ret tt
   else
     v <- mesh_data_getitem name ;;
     ' (vertices, faces, color, opacity) <- lift (unpack4 v) ;;
     data_append (Mesh3d_of vertices faces color opacity name))%py.

(** The loop runs over the keys present when it starts; reading a key
    that is present never changes the dict, so the view does not move
    under the loop. *)
Definition create_3d_html : M html_frame unit :=
  (v <- mesh_data_getitem "brain" ;;
   ' (vertices, faces, color, opacity) <- lift (unpack4 v) ;;
   data_append (Mesh3d_of vertices faces color opacity "brain") ;;;
   s <- get ;;
   for_each (keys (mesh_data s)) html_body ;;;
   s <- get ;;
   write_html "brain_plot.html" (go.mk_Figure (html_data s)))%py.

(** ** The scene-graph exporter *)

(** [Gf.Vec3f(x, y, z)] as the script builds it, from three Python
    floats; how the library stores the components is its own matter. *)
Module Gf.
Inductive Vec3f : Type := mk_Vec3f (x y z : float).
End Gf.

Inductive usd_value : Type :=
| Point3fArray (l : list Gf.Vec3f)
| Normal3fArray (l : list Gf.Vec3f)
| IntArray (l : list Z)
| Token (t : string)
| Color3f (c : Gf.Vec3f).

(** What the script authors on the stage, call by call. *)
Inductive authored : Type :=
| Define (path type_name : string)
| SetAttr (path attr : string) (v : usd_value)
| CreateOutput (path output type_name : string)
| ConnectToSource (path output source_path source_output : string)
| Bind (prim_path material_path : string).

Record Stage : Type := mk_Stage {
  identifier : string;
  default_prim : option string;
  root_layer : list authored;
  saved : bool
}.

(** What [create_usdc_with_materials] can change: the mapping it is
    given and the stage it creates. *)
Record usd_frame : Type := mk_usd_frame {
  mesh_data_dict : mapping;
  stage : option Stage
}.

Definition usd_init (md : mapping) : usd_frame := mk_usd_frame md None.

Definition Stage_CreateNew (filename : string) : M usd_frame unit :=
  modify (fun s => mk_usd_frame (mesh_data_dict s)
                     (Some (mk_Stage filename None [] false))).

Definition on_stage (f : Stage -> Stage) : M usd_frame unit :=
  modify (fun s => mk_usd_frame (mesh_data_dict s) (option_map f (stage s))).

Definition author (a : authored) : M usd_frame unit :=
  on_stage (fun st => mk_Stage (identifier st) (default_prim st)
                               (root_layer st ++ [a]) (saved st)).

Definition SetDefaultPrim (path : string) : M usd_frame unit :=
  on_stage (fun st => mk_Stage (identifier st) (Some path)
                               (root_layer st) (saved st)).

Definition Save : M usd_frame unit :=
  on_stage (fun st => mk_Stage (identifier st) (default_prim st)
                               (root_layer st) true).

Definition Vec3f_of_vertex (v : vertex) : Gf.Vec3f :=
  let '(x, y, z) := v in Gf.mk_Vec3f x y z.

(** [faces.flatten().tolist()] *)
Definition flatten (faces : list face) : list Z :=
  flat_map (fun f => let '(a, b, c) := f in [a; b; c]) faces.

Definition mesh_path_of (name : string) : string := "/World/" ++ name.
Definition mat_path_of (name : string) : string := "/Materials/" ++ name ++ "Mat".
Definition shader_path_of (name : string) : string :=
  "/Materials/" ++ name ++ "Mat/Shader".

(** The body of the loop over [mesh_data_dict.items()]. *)
Definition usdc_body (item : string * value) : M usd_frame unit :=
  (let '(name, v) := item in
   ' (vertices, faces, color, opacity) <- lift (unpack4 v) ;;
   color_tuple <- lift (COLOR_MAP_getitem color) ;;
   let mesh_path := mesh_path_of name in
   author (Define mesh_path "Mesh") ;;;
   let points := map Vec3f_of_vertex vertices in
   let face_vertex_indices := flatten faces in
   let face_vertex_counts := repeat 3%Z (List.length faces) in
   author (SetAttr mesh_path "points" (Point3fArray points)) ;;;
   author (SetAttr mesh_path "faceVertexIndices" (IntArray face_vertex_indices)) ;;;
   author (SetAttr mesh_path "faceVertexCounts" (IntArray face_vertex_counts)) ;;;
   author (SetAttr mesh_path "normals"
             (Normal3fArray (repeat (Gf.mk_Vec3f 0 0 1) (List.length vertices)))) ;;;
   author (SetAttr mesh_path "normals:interpolation" (Token "vertex")) ;;;
   let mat_path := mat_path_of name in
   let shader_path := shader_path_of name in
   author (Define mat_path "Material") ;;;
   author (Define shader_path "Shader") ;;;
   author (SetAttr shader_path "info:id" (Token "UsdPreviewSurface")) ;;;
   author (SetAttr shader_path "inputs:diffuseColor"
             (Color3f (let '(r, g, b) := color_tuple in Gf.mk_Vec3f r g b))) ;;;
   author (CreateOutput shader_path "surface" "token") ;;;
   author (CreateOutput mat_path "surface" "token") ;;;
   author (ConnectToSource mat_path "surface" shader_path "surface") ;;;
   author (Bind mesh_path mat_path))%py.

Definition create_usdc_with_materials (filename : string) : M usd_frame unit :=
  (Stage_CreateNew filename ;;;
   author (Define "/World" "Xform") ;;;
   SetDefaultPrim "/World" ;;;
   s <- get ;;
   for_each (items (mesh_data_dict s)) usdc_body ;;;
   Save)%py.

(** ** Concrete inputs used by the examples below *)

Definition tri_verts : list vertex :=
  [ (0, 0, 0); (1, 0, 0); (0, 1, 0); (0, 0, 1) ]%float.
Definition tri_faces : list face := [ (0, 1, 2); (0, 2, 3) ]%Z.

Definition demo_mapping : mapping :=
  mk_mapping (Some list_factory)
    [ ("Edema", Tuple4 (tri_verts, tri_faces, "yellow", 0.3%float));
      ("brain", Tuple4 (tri_verts, tri_faces, "pink", 0.2%float)) ].


(** A mapping as [get_tumors] leaves it when only label 1 is present and
    the script has not added ["brain"] yet. *)
Definition no_brain_mapping : mapping :=
  mk_mapping (Some list_factory)
    [ ("Edema", Tuple4 (tri_verts, tri_faces, "yellow", 0.3%float)) ].

Definition no_brain_dict : mapping :=
  mk_mapping None
    [ ("Edema", Tuple4 (tri_verts, tri_faces, "yellow", 0.3%float)) ].

Definition bad_color_mapping : mapping :=
  mk_mapping (Some list_factory)
    [ ("brain", Tuple4 (tri_verts, tri_faces, "pink", 0.2%float));
      ("Edema", Tuple4 (tri_verts, tri_faces, "green", 0.3%float)) ].

(** Stand-ins for the library calls, used only to run the model on
    concrete volumes.  [standin_marching_cubes] keeps one behaviour of
    the real call: it raises when no voxel exceeds the level. *)
Definition standin_seg : ndarray float :=
  mk_ndarray [2; 2; 2]%nat [0; 1; 1; 0; 3; 3; 0; 0]%float.

Definition standin_mri : ndarray float :=
  mk_ndarray [1; 1; 2; 4]%nat [0; 0; 0; 5; 0; 0; 0; 9]%float.

Definition standin_load (path : string) : result (ndarray float) :=
  if String.eqb path main_seg_path then Ok standin_seg
  else if String.eqb path main_mri_path then Ok standin_mri
  else Raise (OSError path).

(** The same segmentation at the script's path, another one elsewhere. *)
Definition standin_load' (path : string) : result (ndarray float) :=
  if String.eqb path main_seg_path then Ok standin_seg
  else Ok standin_mri.

Definition standin_zoom_keep (a : ndarray float) (f : float)
  : result (ndarray float) := Ok a.

Definition standin_zoom_scale (a : ndarray float) (f : float)
  : result (ndarray float) := Ok (amap (fun x => PrimFloat.mul x f) a).

Definition standin_mc_float (a : ndarray float) (level : float)
  : result mc_result :=
  if existsb (fun x => PrimFloat.ltb level x) (data a)
  then Ok (tri_verts, tri_faces, [], [])
  else Raise (ValueError "Surface level must be within volume data range.").

Definition standin_marching_cubes (v : volume) (level : float)
  : result mc_result :=
  match v with
  | VFloat a => standin_mc_float a level
  | VUInt8 a => standin_mc_float (amap uint8_to_float a) level
  end.

Definition standin_threshold (a : ndarray float) : result float := Ok 1%float.

Definition ones_mask : ndarray bool := mk_ndarray [2; 1; 1]%nat [true; true].

(** What the stand-ins make of [standin_seg]: labels 1 and 3 are
    present, label 2 is not. *)
Definition standin_tumor_data : mapping :=
  mk_mapping (Some list_factory)
    [ ("Edema", Tuple4 (tri_verts, tri_faces, "yellow", 0.3%float));
      ("Enhancing", Tuple4 (tri_verts, tri_faces, "lightblue", 0.3%float)) ].

(** The layer a slot gives in the loop of [create_3d_html], and the
    layers of all the slots other than ["brain"], in dict order. *)
Definition layer_of (kv : string * value) : list go.Mesh3d :=
  match snd kv with
  | Tuple4 (vertices, faces, color, opacity) =>
      [Mesh3d_of vertices faces color opacity (fst kv)]
  | EmptyList => []
  end.

Definition not_brain (kv : string * value) : bool :=
  negb (String.eqb (fst kv) "brain").

Definition other_layers (md : mapping) : list go.Mesh3d :=
  flat_map layer_of (filter not_brain (items md)).

(** What one turn of the loop of [create_usdc_with_materials] authors
    for an entry whose color is in the table. *)
Definition entry_specs (name : string) (vertices : list vertex)
    (faces : list face) (rgb : float * float * float) : list authored :=
  [ Define (mesh_path_of name) "Mesh";
    SetAttr (mesh_path_of name) "points"
      (Point3fArray (map Vec3f_of_vertex vertices));
    SetAttr (mesh_path_of name) "faceVertexIndices" (IntArray (flatten faces));
    SetAttr (mesh_path_of name) "faceVertexCounts"
      (IntArray (repeat 3%Z (List.length faces)));
    SetAttr (mesh_path_of name) "normals"
      (Normal3fArray (repeat (Gf.mk_Vec3f 0 0 1) (List.length vertices)));
    SetAttr (mesh_path_of name) "normals:interpolation" (Token "vertex");
    Define (mat_path_of name) "Material";
    Define (shader_path_of name) "Shader";
    SetAttr (shader_path_of name) "info:id" (Token "UsdPreviewSurface");
    SetAttr (shader_path_of name) "inputs:diffuseColor"
      (Color3f (let '(r, g, b) := rgb in Gf.mk_Vec3f r g b));
    CreateOutput (shader_path_of name) "surface" "token";
    CreateOutput (mat_path_of name) "surface" "token";
    ConnectToSource (mat_path_of name) "surface" (shader_path_of name) "surface";
    Bind (mesh_path_of name) (mat_path_of name) ].

(** The exception, if any, that a slot makes the loop body raise. *)
Definition usdc_item_error (kv : string * value) : option exn :=
  match snd kv with
  | Tuple4 (_, _, color, _) =>
      match color_assoc color COLOR_MAP with
      | Some _ => None
      | None => Some (KeyError color)
      end
  | EmptyList =>
      Some (ValueError "not enough values to unpack (expected 4, got 0)")
  end.

Definition specs_of (kv : string * value) : list authored :=
  match snd kv with
  | Tuple4 (vertices, faces, color, _) =>
      match color_assoc color COLOR_MAP with
      | Some rgb => entry_specs (fst kv) vertices faces rgb
      | None => []
      end
  | EmptyList => []
  end.

(** The slots the loop gets through, and the exception that stops it. *)
Fixpoint processed (l : list (string * value)) : list (string * value) :=
  match l with
  | [] => []
  | kv :: l' =>
      match usdc_item_error kv with
      | Some _ => []
      | None => kv :: processed l'
      end
  end.

Fixpoint first_error (l : list (string * value)) : option exn :=
  match l with
  | [] => None
  | kv :: l' =>
      match usdc_item_error kv with
      | Some e => Some e
      | None => first_error l'
      end
  end.

Definition outcome (e : option exn) : result unit :=
  match e with
  | Some e => Raise e
  | None => Ok tt
  end.

Definition add_specs (st : Stage) (l : list authored) : Stage :=
  mk_Stage (identifier st) (default_prim st) (root_layer st ++ l) (saved st).

(** What the stage holds when [create_usdc_with_materials] stops. *)
Definition usdc_layer (filename : string) (md : mapping) : list authored :=
  match stage (snd (create_usdc_with_materials filename (usd_init md))) with
  | Some st => root_layer st
  | None => []
  end.

Definition usdc_saved (filename : string) (md : mapping) : bool :=
  match stage (snd (create_usdc_with_materials filename (usd_init md))) with
  | Some st => saved st
  | None => false
  end.

(** ** The rest of the script body *)

Definition main_usdc_path : string := "brain_with_tumor.usdc".

Section Main.

Local Open Scope py_scope.

Variable nib_load_get_fdata : string -> result (ndarray float).
Variable zoom : ndarray float -> float -> result (ndarray float).
Variable marching_cubes : volume -> float -> result mc_result.
Variable threshold_otsu : ndarray float -> result float.

(** Lines 128-146: the mapping is built, then handed to the web exporter
    and, as that call left it, to the scene-graph exporter.  The value
    is what the run leaves behind: the documents written, the stage, and
    the mapping. *)
Definition main
  : result (list (string * go.Figure) * option Stage * mapping) :=
  tumor_data <~ main_mesh_data nib_load_get_fdata zoom marching_cubes
                  threshold_otsu ;;
  let h := create_3d_html (html_init tumor_data) in
  _ <~ fst h ;;
  let u := create_usdc_with_materials main_usdc_path
             (usd_init (mesh_data (snd h))) in
  _ <~ fst u ;;
  Ok (html_files (snd h), stage (snd u), mesh_data_dict (snd u)).

End Main.

(** The rows of [tumor_labels] whose mask is not empty, and the name of
    a row. *)
Definition label_name (item : Z * (string * string * float)) : string :=
  fst (fst (snd item)).

Definition present_labels (seg_data : ndarray float)
  : list (Z * (string * string * float)) :=
  filter (fun item => negb (np_sum (label_mask seg_data (fst item)) =? 0)%Z)
         tumor_labels.

(** A slot that the loop of [create_usdc_with_materials] gets through. *)
Definition exportable (kv : string * value) : bool :=
  match usdc_item_error kv with
  | None => true
  | Some _ => false
  end.

(** The paths of the prims defined on a layer with a given type, and of
    all the prims defined on it, in the order of the calls. *)
Fixpoint defined_with_type (type_name : string) (l : list authored)
  : list string :=
  match l with
  | [] => []
  | Define path t :: l' =>
      if String.eqb t type_name
      then path :: defined_with_type type_name l'
      else defined_with_type type_name l'
  | _ :: l' => defined_with_type type_name l'
  end.

Fixpoint defined_paths (l : list authored) : list string :=
  match l with
  | [] => []
  | Define path _ :: l' => path :: defined_paths l'
  | _ :: l' => defined_paths l'
  end.

Fixpoint last_ascii (s : string) : option Ascii.ascii :=
  match s with
  | EmptyString => None
  | String c EmptyString => Some c
  | String _ s' => last_ascii s'
  end.

(** The three prims of an entry. *)
Definition entry_paths (name : string) : list string :=
  [mesh_path_of name; mat_path_of name; shader_path_of name].

(** * Properties *)

(** ** Sanity checks of the conversions and of the two exporters *)

Example float_to_uint8_fraction : float_to_uint8 0.7%float = 0%Z.
Proof. vm_compute. reflexivity. Qed.

Example float_to_uint8_one : float_to_uint8 1%float = 1%Z.
Proof. vm_compute. reflexivity. Qed.

Example uint8_to_float_one : uint8_to_float 1 = 1%float.
Proof. vm_compute. reflexivity. Qed.

Example index_last_axis4_standin :
  index_last_axis4 standin_mri 3 = Ok (mk_ndarray [1; 1; 2]%nat [5; 9]%float).
Proof. reflexivity. Qed.

Example demo_html_layer_names :
  map go.name (html_data (snd (create_3d_html (html_init demo_mapping))))
  = ["brain"; "Edema"].
Proof. reflexivity. Qed.

Example demo_usdc_saved :
  option_map saved
    (stage (snd (create_usdc_with_materials "out.usdc" (usd_init demo_mapping))))
  = Some true.
Proof. reflexivity. Qed.

(** ** The mapping *)

Lemma assoc_in_keys (k : string) (l : list (string * value)) :
  In k (map fst l) -> exists v, assoc k l = Some v.
Proof.
  induction l as [|[k' v'] l IH]; simpl; [tauto|].
  intros [Hk|Hk].
  - subst k'. rewrite String.eqb_refl. eauto.
  - destruct (String.eqb k k'); eauto.
Qed.


Lemma existsb_eqb_in (k : string) (l : list string) :
  existsb (String.eqb k) l = true <-> In k l.
Proof.
  rewrite existsb_exists. split.
  - intros (x & Hx & E). apply String.eqb_eq in E. now subst.
  - intros H. exists k. split; [assumption|apply String.eqb_refl].
Qed.

Lemma assoc_distinct_in (k : string) (v : value) (l : list (string * value)) :
  distinct (map fst l) = true -> In (k, v) l -> assoc k l = Some v.
Proof.
  induction l as [|[k' v'] l IH]; simpl; [tauto|].
  intros Hd [Hin|Hin].
  - injection Hin as -> ->. now rewrite String.eqb_refl.
  - apply andb_prop in Hd as [Hn Hd].
    destruct (String.eqb k k') eqn:E.
    + apply String.eqb_eq in E. subst k'.
      apply negb_true_iff in Hn.
      assert (existsb (String.eqb k) (map fst l) = true) as Hc.
      { apply existsb_eqb_in. apply (in_map fst) in Hin. exact Hin. }
      congruence.
    + auto.
Qed.

Lemma contains_false_lookup (md : mapping) (k : string) :
  contains md k = false -> lookup md k = None.
Proof. unfold contains. destruct (lookup md k); [discriminate|reflexivity]. Qed.

Lemma getitem_present (md : mapping) (k : string) (v : value) :
  lookup md k = Some v -> getitem md k = (Ok v, md).
Proof. unfold getitem. now intros ->. Qed.

(** ** Frames kept by a loop *)

Lemma for_each_keeps {S A} (P : S -> Prop) (xs : list A) (body : A -> M S unit) :
  (forall x s, In x xs -> P s -> P (snd (body x s))) ->
  forall s, P s -> P (snd (for_each xs body s)).
Proof.
  induction xs as [|x xs IH]; simpl; intros Hb s Hs; [exact Hs|].
  unfold bind.
  pose proof (Hb x s (or_introl eq_refl) Hs) as Hx.
  destruct (body x s) as [[[]|e] s']; simpl in *.
  - apply IH; auto.
  - exact Hx.
Qed.

Lemma mesh_data_getitem_present (s : html_frame) (k : string) (v : value) :
  lookup (mesh_data s) k = Some v -> mesh_data_getitem k s = (Ok v, s).
Proof.
  intros H. unfold mesh_data_getitem. rewrite (getitem_present _ _ _ H).
  now destruct s.
Qed.

Lemma html_body_keeps_mapping (name : string) (s : html_frame) :
  In name (keys (mesh_data s)) ->
  mesh_data (snd (html_body name s)) = mesh_data s.
Proof.
  intros Hin. unfold html_body.
  destruct (String.eqb name "brain"); [reflexivity|].
  destruct (assoc_in_keys _ _ Hin) as [v Hv].
  unfold bind. rewrite (mesh_data_getitem_present _ _ _ Hv).
  destruct v as [[[[vs fs] c] o]|]; reflexivity.
Qed.

Lemma html_loop_keeps_mapping (md : mapping) (names : list string) (s : html_frame) :
  incl names (keys md) -> mesh_data s = md ->
  mesh_data (snd (for_each names html_body s)) = md.
Proof.
  intros Hincl Hs.
  apply (for_each_keeps (fun s => mesh_data s = md)); [|exact Hs].
  intros x s0 Hx Hs0. rewrite html_body_keeps_mapping; [exact Hs0|].
  rewrite Hs0. now apply Hincl.
Qed.

Lemma contains_true_lookup (md : mapping) (k : string) :
  contains md k = true -> exists v, lookup md k = Some v.
Proof. unfold contains. destruct (lookup md k); [eauto|discriminate]. Qed.

Lemma usdc_body_keeps_mapping (item : string * value) (s : usd_frame) :
  mesh_data_dict (snd (usdc_body item s)) = mesh_data_dict s.
Proof.
  destruct item as [name [[[[vs fs] c] o]|]]; unfold usdc_body; [|reflexivity].
  unfold bind at 1. simpl.
  unfold bind at 1. unfold lift at 1.
  destruct (COLOR_MAP_getitem c) as [[[r g] b]|e]; reflexivity.
Qed.

(** ** The web exporter without a ["brain"] entry *)

(** C1, as amended: on a mapping without the key ["brain"] the web
    exporter stops before it builds any mesh layer and writes no file.
    On a plain dict the lookup raises the key-lookup error and the dict
    is untouched; on the [defaultdict(list)] that [get_tumors] builds
    the lookup binds ["brain"] to an empty list, and it is the unpacking
    of that list into four names that raises. *)
Theorem create_3d_html_without_brain (md : mapping) :
  contains md "brain" = false ->
  html_data (snd (create_3d_html (html_init md))) = [] /\
  html_files (snd (create_3d_html (html_init md))) = [] /\
  match default_factory md with
  | None =>
      fst (create_3d_html (html_init md)) = Raise (KeyError "brain") /\
      mesh_data (snd (create_3d_html (html_init md))) = md
  | Some list_factory =>
      fst (create_3d_html (html_init md))
      = Raise (ValueError "not enough values to unpack (expected 4, got 0)") /\
      mesh_data (snd (create_3d_html (html_init md)))
      = setitem md "brain" EmptyList
  end.
Proof.
  intros H. apply contains_false_lookup in H.
  unfold create_3d_html, bind, mesh_data_getitem, getitem, html_init.
  cbn [mesh_data]. rewrite H.
  destruct (default_factory md) as [[]|]; cbn; auto.
Qed.

Lemma create_3d_html_without_brain_witness :
  contains no_brain_mapping "brain" = false /\
  fst (create_3d_html (html_init no_brain_mapping))
  = Raise (ValueError "not enough values to unpack (expected 4, got 0)") /\
  contains no_brain_dict "brain" = false /\
  fst (create_3d_html (html_init no_brain_dict)) = Raise (KeyError "brain").
Proof.
  split; [reflexivity|]. split.
  - exact (proj1 (proj2 (proj2
      (create_3d_html_without_brain no_brain_mapping eq_refl)))).
  - split; [reflexivity|].
    exact (proj1 (proj2 (proj2
      (create_3d_html_without_brain no_brain_dict eq_refl)))).
Defined.

(** C1, as stated, fails on the mapping the extractor produces: the
    error raised there is not the key-lookup error. *)
Lemma create_3d_html_without_brain_not_KeyError :
  contains no_brain_mapping "brain" = false /\
  fst (create_3d_html (html_init no_brain_mapping)) <> Raise (KeyError "brain") /\
  lookup (mesh_data (snd (create_3d_html (html_init no_brain_mapping)))) "brain"
  = Some EmptyList.
Proof.
  split; [reflexivity|]. split; [|reflexivity].
  cbv. discriminate.
Qed.

(** ** Neither exporter changes the mapping *)

(** C7: when the mapping has a ["brain"] key, the mapping held after
    [create_3d_html] and after [create_usdc_with_materials] is the one
    they were given, whether they return or raise. *)
Theorem exporters_keep_mapping (md : mapping) (filename : string) :
  contains md "brain" = true ->
  mesh_data (snd (create_3d_html (html_init md))) = md /\
  mesh_data_dict (snd (create_usdc_with_materials filename (usd_init md))) = md.
Proof.
  intros H. split.
  - destruct (contains_true_lookup _ _ H) as [v Hv].
    unfold create_3d_html. unfold bind at 1.
    rewrite (mesh_data_getitem_present (html_init md) "brain" v Hv).
    destruct v as [[[[vs fs] c] o]|]; [|reflexivity].
    unfold bind at 1. unfold lift at 1. cbn [unpack4].
    unfold bind at 1. unfold data_append at 1, modify at 1.
    unfold bind at 1. unfold get at 1.
    unfold bind at 1.
    match goal with
    | |- context [for_each ?ks html_body ?s0] =>
        pose proof (html_loop_keeps_mapping md ks s0 (incl_refl _) eq_refl) as Hl;
        destruct (for_each ks html_body s0) as [[[]|e] s1]
    end; simpl in Hl |- *; exact Hl.
  - unfold create_usdc_with_materials.
    unfold bind at 1. unfold Stage_CreateNew at 1, modify at 1.
    unfold bind at 1. unfold author at 1, on_stage at 1, modify at 1.
    unfold bind at 1. unfold SetDefaultPrim at 1, on_stage at 1, modify at 1.
    unfold bind at 1. unfold get at 1.
    unfold bind at 1.
    match goal with
    | |- context [for_each ?its usdc_body ?s0] =>
        pose proof (for_each_keeps (fun s => mesh_data_dict s = md) its usdc_body
                      (fun x s _ Hs => eq_trans (usdc_body_keeps_mapping x s) Hs)
                      s0 eq_refl) as Hl;
        destruct (for_each its usdc_body s0) as [[[]|e] s1]
    end; simpl in Hl |- *; exact Hl.
Qed.

Lemma exporters_keep_mapping_witness :
  contains demo_mapping "brain" = true /\
  mesh_data (snd (create_3d_html (html_init demo_mapping))) = demo_mapping /\
  mesh_data_dict
    (snd (create_usdc_with_materials "brain_with_tumor.usdc" (usd_init demo_mapping)))
  = demo_mapping.
Proof.
  split; [reflexivity|].
  exact (exporters_keep_mapping demo_mapping "brain_with_tumor.usdc" eq_refl).
Defined.

(** ** The layers of the web document *)

Lemma all_entries_in (md : mapping) (k : string) (v : value) :
  all_entries md = true -> In (k, v) (items md) -> exists e, v = Tuple4 e.
Proof.
  unfold all_entries. rewrite forallb_forall. intros H Hin.
  specialize (H _ Hin). destruct v; [eauto|discriminate].
Qed.

Lemma html_loop_layers (md : mapping) (suf : list (string * value)) :
  all_entries md = true -> distinct (keys md) = true ->
  incl suf (items md) ->
  forall d f,
    for_each (map fst suf) html_body (mk_html_frame md d f)
    = (Ok tt, mk_html_frame md (d ++ flat_map layer_of (filter not_brain suf)) f).
Proof.
  intros Hall Hd. induction suf as [|[k v] suf IH]; intros Hincl d f.
  - simpl. now rewrite app_nil_r.
  - assert (In (k, v) (items md)) as Hin by (apply Hincl; now left).
    assert (incl suf (items md)) as Hincl' by (intros x Hx; apply Hincl; now right).
    cbn [map fst for_each filter]. unfold bind at 1, html_body at 1, not_brain at 1.
    cbn [fst].
    destruct (String.eqb k "brain") eqn:E; cbn [negb].
    + cbn. apply IH. exact Hincl'.
    + destruct (all_entries_in md k v Hall Hin) as [[[[vs fs] c] o] ->].
      unfold bind at 1.
      rewrite (mesh_data_getitem_present (mk_html_frame md d f) k
                 (Tuple4 (vs, fs, c, o)) (assoc_distinct_in _ _ _ Hd Hin)).
      cbn. rewrite (IH Hincl'). now rewrite <- app_assoc.
Qed.







(** ** The scene-graph exporter, turn by turn *)

Lemma bind_lift_ok {S A B} (a : A) (k : A -> M S B) (s : S) :
  bind (lift (Ok a)) k s = k a s.
Proof. reflexivity. Qed.

Lemma bind_lift_raise {S A B} (e : exn) (k : A -> M S B) (s : S) :
  bind (lift (Raise e)) k s = (Raise e, s).
Proof. reflexivity. Qed.

Lemma author_run (md : mapping) (st : Stage) (a : authored) :
  author a (mk_usd_frame md (Some st))
  = (Ok tt, mk_usd_frame md (Some (add_specs st [a]))).
Proof. reflexivity. Qed.

Lemma author_bind {B} (md : mapping) (st : Stage) (a : authored)
    (k : unit -> M usd_frame B) :
  bind (author a) k (mk_usd_frame md (Some st))
  = k tt (mk_usd_frame md (Some (add_specs st [a]))).
Proof. reflexivity. Qed.

Lemma add_specs_app (st : Stage) (l1 l2 : list authored) :
  add_specs (add_specs st l1) l2 = add_specs st (l1 ++ l2).
Proof. unfold add_specs. cbn. now rewrite app_assoc. Qed.

Lemma add_specs_nil (st : Stage) : add_specs st [] = st.
Proof. destruct st. unfold add_specs. cbn. now rewrite app_nil_r. Qed.

Lemma usdc_body_run (md : mapping) (st : Stage) (kv : string * value) :
  usdc_body kv (mk_usd_frame md (Some st))
  = (outcome (usdc_item_error kv),
     mk_usd_frame md (Some (add_specs st (specs_of kv)))).
Proof.
  destruct kv as [name [[[[vs fs] c] o]|]];
    unfold usdc_body, usdc_item_error, specs_of; cbn [fst snd unpack4].
  - rewrite bind_lift_ok. unfold COLOR_MAP_getitem.
    destruct (color_assoc c COLOR_MAP) as [[[r g] b]|].
    + rewrite bind_lift_ok. cbv zeta.
      rewrite !author_bind, author_run, !add_specs_app. reflexivity.
    + rewrite bind_lift_raise, add_specs_nil. reflexivity.
  - rewrite bind_lift_raise, add_specs_nil. reflexivity.
Qed.

Lemma usdc_loop_run (md : mapping) (l : list (string * value)) :
  forall st,
    for_each l usdc_body (mk_usd_frame md (Some st))
    = (outcome (first_error l),
       mk_usd_frame md (Some (add_specs st (flat_map specs_of (processed l))))).
Proof.
  induction l as [|kv l IH]; intros st.
  - cbn. now rewrite add_specs_nil.
  - cbn [for_each first_error processed]. unfold bind.
    rewrite usdc_body_run.
    destruct (usdc_item_error kv) as [e|] eqn:E; cbn [outcome].
    + assert (specs_of kv = []) as ->.
      { unfold specs_of. unfold usdc_item_error in E.
        destruct (snd kv) as [[[[vs fs] c] o]|]; [|reflexivity].
        destruct (color_assoc c COLOR_MAP); [discriminate|reflexivity]. }
      reflexivity.
    + rewrite IH, add_specs_app. reflexivity.
Qed.

Lemma create_usdc_run (filename : string) (md : mapping) :
  create_usdc_with_materials filename (usd_init md)
  = (outcome (first_error (items md)),
     mk_usd_frame md
       (Some (mk_Stage filename (Some "/World")
                (Define "/World" "Xform"
                 :: flat_map specs_of (processed (items md)))
                (match first_error (items md) with
                 | None => true
                 | Some _ => false
                 end)))).
Proof.
  unfold create_usdc_with_materials.
  unfold bind at 1. unfold Stage_CreateNew at 1, modify at 1.
  unfold bind at 1. unfold author at 1, on_stage at 1, modify at 1.
  unfold bind at 1. unfold SetDefaultPrim at 1, on_stage at 1, modify at 1.
  unfold bind at 1. unfold get at 1.
  unfold bind at 1. cbn [usd_init mesh_data_dict stage option_map identifier
                         default_prim root_layer saved app].
  rewrite usdc_loop_run.
  destruct (first_error (items md)); reflexivity.
Qed.

Lemma usdc_layer_eq (filename : string) (md : mapping) :
  usdc_layer filename md
  = Define "/World" "Xform" :: flat_map specs_of (processed (items md)).
Proof. unfold usdc_layer. now rewrite create_usdc_run. Qed.

Lemma processed_incl (l : list (string * value)) : incl (processed l) l.
Proof.
  induction l as [|kv l IH]; simpl; [apply incl_refl|].
  destruct (usdc_item_error kv).
  - intros x [].
  - intros x [Hx|Hx]; [now left|right; now apply IH].
Qed.

Lemma processed_all (l : list (string * value)) :
  first_error l = None -> processed l = l.
Proof.
  induction l as [|kv l IH]; simpl; [reflexivity|].
  destruct (usdc_item_error kv); [discriminate|].
  intros H. now rewrite IH.
Qed.

Lemma flatten_length (fs : list face) :
  List.length (flatten fs) = (3 * List.length fs)%nat.
Proof.
  unfold flatten. induction fs as [|[[a b] c] fs IH]; simpl; [reflexivity|].
  rewrite IH. lia.
Qed.

Lemma repeat_three (n : nat) : Forall (fun c => c = 3%Z) (repeat 3%Z n).
Proof. induction n; simpl; constructor; auto. Qed.

(** The slot behind a spec found on the stage; all that the turn of
    that slot authors is on the stage with it. *)
Lemma in_layer_inv (filename : string) (md : mapping) (a : authored) :
  In a (usdc_layer filename md) ->
  a = Define "/World" "Xform" \/
  exists name vs fs c o rgb,
    In (name, Tuple4 (vs, fs, c, o)) (items md) /\
    color_assoc c COLOR_MAP = Some rgb /\
    In a (entry_specs name vs fs rgb) /\
    incl (entry_specs name vs fs rgb) (usdc_layer filename md).
Proof.
  rewrite usdc_layer_eq. intros [H|H]; [left; now symmetry|right].
  apply in_flat_map in H as ([name v] & Hin & Ha).
  assert (incl (specs_of (name, v))
               (Define "/World" "Xform"
                :: flat_map specs_of (processed (items md)))) as Hincl.
  { intros x Hx. right. apply in_flat_map. eauto. }
  apply processed_incl in Hin.
  unfold specs_of in Ha, Hincl. cbn [fst snd] in Ha, Hincl.
  destruct v as [[[[vs fs] c] o]|]; [|contradiction].
  destruct (color_assoc c COLOR_MAP) as [rgb|] eqn:E; [|contradiction].
  exists name, vs, fs, c, o, rgb. auto.
Qed.

Lemma in_layer_intro (filename : string) (md : mapping) (a : authored)
    (name : string) (vs : list vertex) (fs : list face) (c : string) (o : float) :
  fst (create_usdc_with_materials filename (usd_init md)) = Ok tt ->
  In (name, Tuple4 (vs, fs, c, o)) (items md) ->
  exists rgb,
    color_assoc c COLOR_MAP = Some rgb /\
    (In a (entry_specs name vs fs rgb) -> In a (usdc_layer filename md)).
Proof.
  rewrite create_usdc_run, usdc_layer_eq. cbn [fst].
  intros Hok Hin.
  destruct (first_error (items md)) eqn:E; [discriminate|].
  rewrite (processed_all _ E).
  assert (usdc_item_error (name, Tuple4 (vs, fs, c, o)) = None) as Hk.
  { clear Hok. induction (items md) as [|kv l IH]; [contradiction|].
    simpl in E. destruct (usdc_item_error kv) eqn:Ek; [discriminate|].
    destruct Hin as [->|Hin]; auto. }
  unfold usdc_item_error in Hk. cbn [snd] in Hk.
  destruct (color_assoc c COLOR_MAP) as [rgb|] eqn:Ec; [|discriminate].
  exists rgb. split; [reflexivity|].
  intros Ha. right. apply in_flat_map.
  exists (name, Tuple4 (vs, fs, c, o)). split; [assumption|].
  unfold specs_of. cbn [fst snd]. now rewrite Ec.
Qed.

Ltac spec_cases H :=
  unfold entry_specs in H; cbn [In] in H;
  repeat (destruct H as [H|H]; [try discriminate H|]);
  try contradiction.

Lemma in_entry_specs_counts (name : string) (vs : list vertex) (fs : list face)
    (rgb : float * float * float) (path : string) (l : list Z) :
  In (SetAttr path "faceVertexCounts" (IntArray l)) (entry_specs name vs fs rgb) ->
  path = mesh_path_of name /\ l = repeat 3%Z (List.length fs).
Proof.
  intros H. spec_cases H.
  injection H as <- <-. split; reflexivity.
Qed.


Lemma string_length_append (a b : string) :
  String.length (a ++ b)%string = (String.length a + String.length b)%nat.
Proof. induction a as [|c a IH]; simpl; [reflexivity|now rewrite IH]. Qed.

Lemma string_append_cancel_r (a b s : string) :
  (a ++ s)%string = (b ++ s)%string -> a = b.
Proof.
  revert b. induction a as [|c a IH]; intros [|c' b] H; simpl in H.
  - reflexivity.
  - apply (f_equal String.length) in H. simpl in H.
    rewrite string_length_append in H. lia.
  - apply (f_equal String.length) in H. simpl in H.
    rewrite string_length_append in H. lia.
  - injection H as -> H. f_equal. now apply IH.
Qed.

Lemma shader_path_of_inj (n1 n2 : string) :
  shader_path_of n1 = shader_path_of n2 -> n1 = n2.
Proof.
  unfold shader_path_of. simpl. intros H.
  injection H as H. now apply string_append_cancel_r in H.
Qed.

(** ** An unknown color name *)

Lemma first_error_unknown_color (l : list (string * value)) :
  forallb (fun kv => is_tuple4 (snd kv)) l = true ->
  (exists name vs fs c o,
     In (name, Tuple4 (vs, fs, c, o)) l /\ color_assoc c COLOR_MAP = None) ->
  exists name vs fs c o,
    In (name, Tuple4 (vs, fs, c, o)) l /\ color_assoc c COLOR_MAP = None /\
    first_error l = Some (KeyError c).
Proof.
  induction l as [|[k v] l IH]; intros Hall (name & vs & fs & c & o & Hin & Hc).
  - contradiction.
  - simpl in Hall. apply andb_prop in Hall as [Hv Hall].
    destruct v as [[[[vs' fs'] c'] o']|]; [|discriminate].
    cbn [first_error]. unfold usdc_item_error at 1. cbn [snd].
    destruct (color_assoc c' COLOR_MAP) as [rgb|] eqn:E.
    + destruct Hin as [Hin|Hin]; [injection Hin as -> -> -> -> ->; congruence|].
      destruct (IH Hall) as (n2 & v2 & f2 & c2 & o2 & Hin2 & Hc2 & He).
      { exists name, vs, fs, c, o. auto. }
      exists n2, v2, f2, c2, o2. split; [now right|auto].
    + exists k, vs', fs', c', o'. split; [now left|auto].
Qed.

(** C5: on a mapping of surface entries in which some entry has a color
    name that is not a key of [COLOR_MAP], the scene-graph exporter
    raises the key-lookup error of such a name (the first one the loop
    meets) and the stage is never saved: no default color is put in its
    place and the loop does not go on to later entries. *)
Theorem create_usdc_unknown_color (filename : string) (md : mapping) :
  all_entries md = true ->
  (exists name vs fs c o,
     In (name, Tuple4 (vs, fs, c, o)) (items md) /\
     color_assoc c COLOR_MAP = None) ->
  exists name vs fs c o,
    In (name, Tuple4 (vs, fs, c, o)) (items md) /\
    color_assoc c COLOR_MAP = None /\
    fst (create_usdc_with_materials filename (usd_init md)) = Raise (KeyError c) /\
    usdc_saved filename md = false.
Proof.
  intros Hall Hex.
  destruct (first_error_unknown_color _ Hall Hex)
    as (name & vs & fs & c & o & Hin & Hc & He).
  exists name, vs, fs, c, o.
  unfold usdc_saved. rewrite create_usdc_run, He. cbn.
  repeat split; auto.
Qed.

Lemma create_usdc_unknown_color_witness :
  all_entries bad_color_mapping = true /\
  exists name vs fs c o,
    In (name, Tuple4 (vs, fs, c, o)) (items bad_color_mapping) /\
    color_assoc c COLOR_MAP = None /\
    fst (create_usdc_with_materials "brain_with_tumor.usdc"
           (usd_init bad_color_mapping)) = Raise (KeyError c) /\
    usdc_saved "brain_with_tumor.usdc" bad_color_mapping = false.
Proof.
  split; [reflexivity|].
  apply (create_usdc_unknown_color "brain_with_tumor.usdc" bad_color_mapping);
    [reflexivity|].
  exists "Edema", tri_verts, tri_faces, "green", 0.3%float.
  split; [right; left; reflexivity|reflexivity].
Defined.

Example bad_color_run :
  fst (create_usdc_with_materials "brain_with_tumor.usdc"
         (usd_init bad_color_mapping)) = Raise (KeyError "green").
Proof. reflexivity. Qed.

(** ** Face counts and face indices on the stage *)

(** C6: every face-vertex-count list found on the stage belongs to the
    mesh of an entry of the mapping, all its values are 3, it has one
    value per row of that entry's faces, and the flattened index list
    authored beside it has three times that length; when the exporter
    returns, every entry of the mapping has these two lists on the
    stage that was saved. *)
Theorem usdc_face_vertex_counts (filename : string) (md : mapping) :
  (forall path l,
     In (SetAttr path "faceVertexCounts" (IntArray l)) (usdc_layer filename md) ->
     Forall (fun n => n = 3%Z) l /\
     exists name vs fs c o,
       In (name, Tuple4 (vs, fs, c, o)) (items md) /\
       path = mesh_path_of name /\
       List.length l = List.length fs /\
       In (SetAttr path "faceVertexIndices" (IntArray (flatten fs)))
          (usdc_layer filename md) /\
       List.length (flatten fs) = (3 * List.length l)%nat) /\
  (fst (create_usdc_with_materials filename (usd_init md)) = Ok tt ->
   usdc_saved filename md = true /\
   forall name vs fs c o,
     In (name, Tuple4 (vs, fs, c, o)) (items md) ->
     In (SetAttr (mesh_path_of name) "faceVertexCounts"
           (IntArray (repeat 3%Z (List.length fs))))
        (usdc_layer filename md) /\
     In (SetAttr (mesh_path_of name) "faceVertexIndices" (IntArray (flatten fs)))
        (usdc_layer filename md)).
Proof.
  split.
  - intros path l H.
    destruct (in_layer_inv _ _ _ H)
      as [Hw|(name & vs & fs & c & o & rgb & Hin & Hc & Ha & Hincl)];
      [discriminate|].
    apply in_entry_specs_counts in Ha as [-> ->].
    split; [apply repeat_three|].
    exists name, vs, fs, c, o. rewrite repeat_length, flatten_length.
    repeat split; auto.
    apply Hincl. unfold entry_specs. cbn [In]. auto.
  - intros Hok. split.
    + unfold usdc_saved. rewrite create_usdc_run in Hok |- *. cbn in Hok |- *.
      destruct (first_error (items md)); [discriminate|reflexivity].
    + intros name vs fs c o Hin. split.
      * destruct (in_layer_intro filename md
                    (SetAttr (mesh_path_of name) "faceVertexCounts"
                       (IntArray (repeat 3%Z (List.length fs))))
                    name vs fs c o Hok Hin) as (rgb & _ & Hi).
        apply Hi. unfold entry_specs. cbn [In]. auto 6.
      * destruct (in_layer_intro filename md
                    (SetAttr (mesh_path_of name) "faceVertexIndices"
                       (IntArray (flatten fs)))
                    name vs fs c o Hok Hin) as (rgb & _ & Hi).
        apply Hi. unfold entry_specs. cbn [In]. auto 6.
Qed.

Lemma usdc_face_vertex_counts_witness :
  In (SetAttr "/World/Edema" "faceVertexCounts" (IntArray [3; 3]%Z))
     (usdc_layer "brain_with_tumor.usdc" demo_mapping) /\
  Forall (fun n => n = 3%Z) [3; 3]%Z /\
  fst (create_usdc_with_materials "brain_with_tumor.usdc" (usd_init demo_mapping))
  = Ok tt /\
  usdc_saved "brain_with_tumor.usdc" demo_mapping = true.
Proof.
  assert (In (SetAttr "/World/Edema" "faceVertexCounts" (IntArray [3; 3]%Z))
             (usdc_layer "brain_with_tumor.usdc" demo_mapping)) as Hin.
  { cbv. auto 8. }
  split; [exact Hin|]. split.
  - exact (proj1 (proj1 (usdc_face_vertex_counts "brain_with_tumor.usdc"
                           demo_mapping) _ _ Hin)).
  - split; [reflexivity|].
    exact (proj1 (proj2 (usdc_face_vertex_counts "brain_with_tumor.usdc"
                           demo_mapping) eq_refl)).
Defined.

(** ** The diffuse color of a shader *)



Example demo_brain_diffuse :
  In (SetAttr "/Materials/brainMat/Shader" "inputs:diffuseColor"
        (Color3f (Gf.mk_Vec3f 0.9 0.7 0.7)))
     (usdc_layer "brain_with_tumor.usdc" demo_mapping).
Proof. cbv. auto 40. Qed.

(** ** The extractor *)

Section Extractor.

Variable zoom : ndarray float -> float -> result (ndarray float).
Variable marching_cubes : volume -> float -> result mc_result.

(** C10: [get_tumors] never reads its argument.  Two calls give the same
    result whatever their arguments are, as soon as the file named by
    the module global [seg_path] has the same contents for both; what is
    stored at the paths passed as arguments plays no part. *)
Theorem get_tumors_ignores_argument
    (load1 load2 : string -> result (ndarray float)) (g : globals)
    (tumor_path1 tumor_path2 : string) :
  (forall p, seg_path g = Some p -> load1 p = load2 p) ->
  get_tumors load1 zoom marching_cubes g tumor_path1
  = get_tumors load2 zoom marching_cubes g tumor_path2.
Proof.
  intros H. unfold get_tumors, read_seg_path.
  destruct (seg_path g) as [p|]; [|reflexivity].
  cbn [rbind]. now rewrite (H p eq_refl).
Qed.





End Extractor.

Lemma get_tumors_ignores_argument_witness :
  get_tumors standin_load standin_zoom_keep standin_marching_cubes
    main_globals main_seg_path
  = get_tumors standin_load' standin_zoom_keep standin_marching_cubes
      main_globals main_mri_path.
Proof.
  apply get_tumors_ignores_argument.
  intros p Hp. injection Hp as <-. reflexivity.
Defined.



Example brain_surface_scaled :
  brain_surface standin_zoom_scale standin_marching_cubes ones_mask
  = Raise (ValueError "Surface level must be within volume data range.").
Proof. vm_compute. reflexivity. Qed.

Example tumor_surface_scaled :
  tumor_surface standin_zoom_scale standin_marching_cubes
    (amap bool_to_uint8 ones_mask)
  = Ok (tri_verts, tri_faces, [], []).
Proof. vm_compute. reflexivity. Qed.

(** ** Empty labels and the keys of the mapping *)

Example standin_get_tumors :
  get_tumors standin_load standin_zoom_keep standin_marching_cubes
    main_globals main_seg_path
  = Ok standin_tumor_data.
Proof. vm_compute. reflexivity. Qed.

Section Script.

Variable nib_load_get_fdata : string -> result (ndarray float).
Variable zoom : ndarray float -> float -> result (ndarray float).
Variable marching_cubes : volume -> float -> result mc_result.
Variable threshold_otsu : ndarray float -> result float.

Lemma get_tumors_step_empty (seg_data : ndarray float) (tumor_data : mapping)
    (label : Z) (name color : string) (opacity : float) :
  np_sum (label_mask seg_data label) = 0%Z ->
  get_tumors_step zoom marching_cubes seg_data tumor_data
    (label, (name, color, opacity))
  = Ok tumor_data.
Proof. intros H. unfold get_tumors_step. now rewrite H. Qed.

Lemma get_tumors_step_surface (seg_data : ndarray float) (tumor_data : mapping)
    (label : Z) (name color : string) (opacity : float)
    (vs : list vertex) (fs : list face) (ns : list vertex) (vals : list float) :
  np_sum (label_mask seg_data label) <> 0%Z ->
  tumor_surface zoom marching_cubes (label_mask seg_data label)
  = Ok (vs, fs, ns, vals) ->
  get_tumors_step zoom marching_cubes seg_data tumor_data
    (label, (name, color, opacity))
  = Ok (setitem tumor_data name (Tuple4 (vs, fs, color, opacity))).
Proof.
  intros Hn Hs. unfold get_tumors_step.
  apply Z.eqb_neq in Hn. rewrite Hn, Hs. reflexivity.
Qed.

(** The mapping returned by [get_tumors], label by label. *)
Lemma get_tumors_result (g : globals) (tumor_path p : string)
    (seg_data : ndarray float) (md : mapping) :
  seg_path g = Some p ->
  nib_load_get_fdata p = Ok seg_data ->
  get_tumors nib_load_get_fdata zoom marching_cubes g tumor_path = Ok md ->
  (forall label name color opacity,
     In (label, (name, color, opacity)) tumor_labels ->
     if (np_sum (label_mask seg_data label) =? 0)%Z
     then lookup md name = None
     else exists vs fs ns vals,
         tumor_surface zoom marching_cubes (label_mask seg_data label)
         = Ok (vs, fs, ns, vals) /\
         lookup md name = Some (Tuple4 (vs, fs, color, opacity))) /\
  (forall name v,
     In (name, v) (items md) ->
     exists label color opacity vs fs ns vals,
       In (label, (name, color, opacity)) tumor_labels /\
       tumor_surface zoom marching_cubes (label_mask seg_data label)
       = Ok (vs, fs, ns, vals) /\
       v = Tuple4 (vs, fs, color, opacity)).
Proof.
  intros Hg Hload. unfold get_tumors, read_seg_path. rewrite Hg. cbn [rbind].
  rewrite Hload. cbn [rbind]. unfold tumor_labels. cbn [fold_result].
  unfold get_tumors_step.
  destruct (np_sum (label_mask seg_data 1) =? 0)%Z eqn:E1;
    [|destruct (tumor_surface zoom marching_cubes (label_mask seg_data 1))
        as [[[[v1 f1] n1] w1]|e1] eqn:S1; [|discriminate]];
    cbn [rbind];
    (destruct (np_sum (label_mask seg_data 2) =? 0)%Z eqn:E2;
     [|destruct (tumor_surface zoom marching_cubes (label_mask seg_data 2))
         as [[[[v2 f2] n2] w2]|e2] eqn:S2; [|discriminate]]);
    cbn [rbind];
    (destruct (np_sum (label_mask seg_data 3) =? 0)%Z eqn:E3;
     [|destruct (tumor_surface zoom marching_cubes (label_mask seg_data 3))
         as [[[[v3 f3] n3] w3]|e3] eqn:S3; [|discriminate]]);
    cbn [rbind];
    intros [= <-]; (split;
    [ intros label name color opacity [H|[H|[H|[]]]];
      injection H as <- <- <- <-;
      rewrite ?E1, ?E2, ?E3;
      first [ reflexivity
            | eexists _, _, _, _; split; [eassumption|reflexivity] ]
    | cbn; intros name v H;
      repeat (destruct H as [H|H];
              [injection H as <- <-;
               eexists _, _, _, _, _, _, _;
               split; [|split; [|reflexivity]]; [|eassumption];
               cbn; auto 6|]);
      try contradiction ]).
Qed.

(** C3: a label whose mask sums to zero makes its turn of the loop
    return the mapping as it was, with no entry added and nothing
    raised, and the mapping that [get_tumors] returns has no key for it.
    For a segmentation in which label 2 is empty and labels 1
    and 3 are not, and on which the library calls return, the script
    reaches the exporters with a mapping whose keys are ["Edema"],
    ["Enhancing"] and ["brain"], and no other. *)
Theorem empty_label_skipped :
  (forall seg_data tumor_data label name color opacity,
     np_sum (label_mask seg_data label) = 0%Z ->
     get_tumors_step zoom marching_cubes seg_data tumor_data
       (label, (name, color, opacity))
     = Ok tumor_data) /\
  (forall g tumor_path p seg_data md label name color opacity,
     seg_path g = Some p ->
     nib_load_get_fdata p = Ok seg_data ->
     get_tumors nib_load_get_fdata zoom marching_cubes g tumor_path = Ok md ->
     In (label, (name, color, opacity)) tumor_labels ->
     np_sum (label_mask seg_data label) = 0%Z ->
     contains md name = false) /\
  (forall seg_data mri mri_data brain_threshold s1 s3 sb,
     nib_load_get_fdata main_seg_path = Ok seg_data ->
     np_sum (label_mask seg_data 1) <> 0%Z ->
     np_sum (label_mask seg_data 2) = 0%Z ->
     np_sum (label_mask seg_data 3) <> 0%Z ->
     tumor_surface zoom marching_cubes (label_mask seg_data 1) = Ok s1 ->
     tumor_surface zoom marching_cubes (label_mask seg_data 3) = Ok s3 ->
     nib_load_get_fdata main_mri_path = Ok mri ->
     index_last_axis4 mri 3 = Ok mri_data ->
     threshold_otsu mri_data = Ok brain_threshold ->
     brain_surface zoom marching_cubes
       (array_gt_scalar mri_data brain_threshold) = Ok sb ->
     exists md,
       main_mesh_data nib_load_get_fdata zoom marching_cubes threshold_otsu
       = Ok md /\
       keys md = ["Edema"; "Enhancing"; "brain"] /\
       contains md "Necrotic" = false /\
       all_entries md = true).
Proof.
  split; [|split].
  - intros. now apply get_tumors_step_empty.
  - intros g tumor_path p seg_data md label name color opacity Hg Hl Hr Hin Hz.
    pose proof (proj1 (get_tumors_result g tumor_path p seg_data md Hg Hl Hr)
                  label name color opacity Hin) as H.
    rewrite Hz in H. cbn in H. unfold contains. now rewrite H.
  - intros seg_data mri mri_data thr [[[v1 f1] n1] w1] [[[v3 f3] n3] w3]
           [[[vb fb] nb] wb] Hseg H1 H2 H3 Hs1 Hs3 Hmri Hch Hth Hsb.
    unfold main_mesh_data, get_tumors, main_globals, read_seg_path.
    cbn [seg_path rbind]. rewrite Hseg. cbn [rbind].
    unfold tumor_labels. cbn [fold_result].
    rewrite (get_tumors_step_surface _ _ _ _ _ _ _ _ _ _ H1 Hs1). cbn [rbind].
    rewrite (get_tumors_step_empty _ _ _ _ _ _ H2). cbn [rbind].
    rewrite (get_tumors_step_surface _ _ _ _ _ _ _ _ _ _ H3 Hs3). cbn [rbind].
    rewrite Hmri. cbn [rbind]. rewrite Hch. cbn [rbind].
    rewrite Hth. cbn [rbind]. rewrite Hsb. cbn [rbind].
    eexists. split; [reflexivity|]. repeat split.
Qed.

End Script.

Lemma empty_label_skipped_witness :
  exists md,
    main_mesh_data standin_load standin_zoom_keep standin_marching_cubes
      standin_threshold = Ok md /\
    keys md = ["Edema"; "Enhancing"; "brain"] /\
    contains md "Necrotic" = false /\
    all_entries md = true.
Proof.
  apply (proj2 (proj2 (empty_label_skipped standin_load standin_zoom_keep
                         standin_marching_cubes standin_threshold))
           standin_seg standin_mri
           (mk_ndarray [1; 1; 2]%nat [5; 9]%float) 1%float
           (tri_verts, tri_faces, [], []) (tri_verts, tri_faces, [], [])
           (tri_verts, tri_faces, [], []));
    try reflexivity; vm_compute; discriminate.
Defined.

(** ** Index bounds *)

Lemma assoc_set_in (k : string) (v : value) (l : list (string * value))
    (k' : string) (v' : value) :
  In (k', v') (assoc_set k v l) -> (k', v') = (k, v) \/ In (k', v') l.
Proof.
  induction l as [|[k0 v0] l IH]; simpl.
  - intros [H|[]]. left. now symmetry.
  - destruct (String.eqb k k0) eqn:E.
    + apply String.eqb_eq in E. subst k0.
      intros [H|H]; [left; now symmetry|right; now right].
    + intros [H|H]; [right; now left|].
      destruct (IH H); [now left|right; now right].
Qed.

Section Bounds.

Variable nib_load_get_fdata : string -> result (ndarray float).
Variable zoom : ndarray float -> float -> result (ndarray float).
Variable marching_cubes : volume -> float -> result mc_result.
Variable threshold_otsu : ndarray float -> result float.

(** What marching cubes promises of a surface it returns. *)
Hypothesis marching_cubes_in_bounds :
  forall vol level vs fs ns vals,
    marching_cubes vol level = Ok (vs, fs, ns, vals) -> index_bounds vs fs.

Lemma tumor_surface_in_bounds (mask : ndarray Z) vs fs ns vals :
  tumor_surface zoom marching_cubes mask = Ok (vs, fs, ns, vals) ->
  index_bounds vs fs.
Proof.
  unfold tumor_surface.
  destruct (zoom (amap uint8_to_float mask) DOWNSAMPLE_FACTOR); [|discriminate].
  cbn [rbind]. apply marching_cubes_in_bounds.
Qed.

Lemma brain_surface_in_bounds (brain_mask : ndarray bool) vs fs ns vals :
  brain_surface zoom marching_cubes brain_mask = Ok (vs, fs, ns, vals) ->
  index_bounds vs fs.
Proof.
  unfold brain_surface.
  destruct (zoom (amap bool_to_float brain_mask) DOWNSAMPLE_FACTOR);
    [|discriminate].
  cbn [rbind]. apply marching_cubes_in_bounds.
Qed.

(** C9: marching cubes returning surfaces whose faces index their
    vertices, [get_tumors] stores under the name of every label with a
    non-empty mask the vertices and faces that marching cubes returned
    for that label, so the entry has its three indices of every face
    below the number of its vertices; the same holds of every entry of
    the mapping it returns, and of every entry of the mapping that the
    script hands to the exporters, the brain included. *)
Theorem get_tumors_index_bounds :
  (forall g tumor_path p seg_data md,
     seg_path g = Some p ->
     nib_load_get_fdata p = Ok seg_data ->
     get_tumors nib_load_get_fdata zoom marching_cubes g tumor_path = Ok md ->
     (forall label name color opacity,
        In (label, (name, color, opacity)) tumor_labels ->
        np_sum (label_mask seg_data label) <> 0%Z ->
        exists vs fs,
          lookup md name = Some (Tuple4 (vs, fs, color, opacity)) /\
          index_bounds vs fs) /\
     (forall name vs fs c o,
        In (name, Tuple4 (vs, fs, c, o)) (items md) -> index_bounds vs fs)) /\
  (forall md,
     main_mesh_data nib_load_get_fdata zoom marching_cubes threshold_otsu
     = Ok md ->
     forall name vs fs c o,
       In (name, Tuple4 (vs, fs, c, o)) (items md) -> index_bounds vs fs).
Proof.
  assert (forall g tumor_path p seg_data md,
            seg_path g = Some p ->
            nib_load_get_fdata p = Ok seg_data ->
            get_tumors nib_load_get_fdata zoom marching_cubes g tumor_path
            = Ok md ->
            forall name vs fs c o,
              In (name, Tuple4 (vs, fs, c, o)) (items md) ->
              index_bounds vs fs) as Hall.
  { intros g tumor_path p seg_data md Hg Hl Hr name vs fs c o Hin.
    destruct (proj2 (get_tumors_result nib_load_get_fdata zoom marching_cubes
                       g tumor_path p seg_data md Hg Hl Hr) _ _ Hin)
      as (label & color & opacity & vs' & fs' & ns & vals & _ & Hs & Hv).
    injection Hv as -> -> _ _. eapply tumor_surface_in_bounds; eassumption. }
  split.
  - intros g tumor_path p seg_data md Hg Hl Hr.
    split; [|eapply Hall; eassumption].
    intros label name color opacity Hin Hn.
    pose proof (proj1 (get_tumors_result nib_load_get_fdata zoom marching_cubes
                         g tumor_path p seg_data md Hg Hl Hr)
                  label name color opacity Hin) as Hlab.
    apply Z.eqb_neq in Hn. rewrite Hn in Hlab.
    destruct Hlab as (vs & fs & ns & vals & Hs & Hk).
    exists vs, fs. split; [exact Hk|].
    eapply tumor_surface_in_bounds; eassumption.
  - intros md Hm name vs fs c o Hin.
    unfold main_mesh_data in Hm.
    destruct (get_tumors nib_load_get_fdata zoom marching_cubes main_globals
                main_seg_path) as [tumor_data|] eqn:Et; [|discriminate].
    assert (exists seg_data, nib_load_get_fdata main_seg_path = Ok seg_data)
      as [seg_data Hl].
    { unfold get_tumors in Et. cbn [main_globals read_seg_path seg_path rbind] in Et.
      destruct (nib_load_get_fdata main_seg_path); [eauto|discriminate]. }
    cbn [rbind] in Hm.
    destruct (nib_load_get_fdata main_mri_path) as [mri|]; [|discriminate].
    cbn [rbind] in Hm.
    destruct (index_last_axis4 mri 3) as [mri_data|]; [|discriminate].
    cbn [rbind] in Hm.
    destruct (threshold_otsu mri_data) as [thr|]; [|discriminate].
    cbn [rbind] in Hm.
    destruct (brain_surface zoom marching_cubes (array_gt_scalar mri_data thr))
      as [[[[vb fb] nb] wb]|] eqn:Eb; [|discriminate].
    cbn [rbind] in Hm. injection Hm as <-.
    cbn [setitem items] in Hin. apply assoc_set_in in Hin as [Hin|Hin].
    + injection Hin as _ -> -> _ _. eapply brain_surface_in_bounds; eassumption.
    + eapply (Hall main_globals main_seg_path main_seg_path seg_data tumor_data);
        [reflexivity|exact Hl|exact Et|exact Hin].
Qed.

End Bounds.

Lemma standin_marching_cubes_in_bounds :
  forall vol level vs fs ns vals,
    standin_marching_cubes vol level = Ok (vs, fs, ns, vals) ->
    index_bounds vs fs.
Proof.
  intros vol level vs fs ns vals H.
  assert (vs = tri_verts /\ fs = tri_faces) as [-> ->].
  { destruct vol as [a|a]; unfold standin_marching_cubes, standin_mc_float in H;
      match type of H with
      | (if ?b then _ else _) = _ => destruct b
      end; try discriminate; injection H as <- <- _ _; auto. }
  unfold index_bounds, tri_verts, tri_faces. repeat constructor; cbn; lia.
Qed.

Lemma get_tumors_index_bounds_witness :
  exists vs fs,
    lookup standin_tumor_data "Enhancing"
    = Some (Tuple4 (vs, fs, "lightblue", 0.3%float)) /\
    index_bounds vs fs.
Proof.
  apply (proj1 (proj1 (get_tumors_index_bounds standin_load standin_zoom_keep
                         standin_marching_cubes standin_threshold
                         standin_marching_cubes_in_bounds)
                  main_globals main_seg_path main_seg_path standin_seg
                  standin_tumor_data eq_refl eq_refl standin_get_tumors)
           3%Z "Enhancing" "lightblue" 0.3%float).
  - right. right. left. reflexivity.
  - vm_compute. discriminate.
Defined.

(** * Further properties of the script *)

(** ** What [get_tumors] returns *)

Section ExtractorFacts.

Variable nib_load_get_fdata : string -> result (ndarray float).
Variable zoom : ndarray float -> float -> result (ndarray float).
Variable marching_cubes : volume -> float -> result mc_result.
Variable threshold_otsu : ndarray float -> result float.

Lemma get_tumors_facts (g : globals) (tumor_path p : string)
    (seg_data : ndarray float) (md : mapping) :
  seg_path g = Some p ->
  nib_load_get_fdata p = Ok seg_data ->
  get_tumors nib_load_get_fdata zoom marching_cubes g tumor_path = Ok md ->
  keys md = map label_name (present_labels seg_data) /\
  default_factory md = Some list_factory /\
  all_entries md = true /\
  distinct (keys md) = true /\
  forallb exportable (items md) = true /\
  lookup md "brain" = None.
Proof.
  intros Hg Hload. unfold get_tumors, read_seg_path. rewrite Hg. cbn [rbind].
  rewrite Hload. cbn [rbind].
  unfold present_labels, tumor_labels. cbn [fold_result filter fst].
  unfold get_tumors_step.
  destruct (np_sum (label_mask seg_data 1) =? 0)%Z eqn:E1;
    [|destruct (tumor_surface zoom marching_cubes (label_mask seg_data 1))
        as [[[[v1 f1] n1] w1]|e1] eqn:S1; [|discriminate]];
    cbn [rbind];
    (destruct (np_sum (label_mask seg_data 2) =? 0)%Z eqn:E2;
     [|destruct (tumor_surface zoom marching_cubes (label_mask seg_data 2))
         as [[[[v2 f2] n2] w2]|e2] eqn:S2; [|discriminate]]);
    cbn [rbind];
    (destruct (np_sum (label_mask seg_data 3) =? 0)%Z eqn:E3;
     [|destruct (tumor_surface zoom marching_cubes (label_mask seg_data 3))
         as [[[[v3 f3] n3] w3]|e3] eqn:S3; [|discriminate]]);
    cbn [rbind];
    intros [= <-]; repeat split.
Qed.

(** X1: the keys of the mapping that [get_tumors] returns are the names
    of the labels 1, 2, 3 whose mask is not empty, in that order, each
    bound to a 4-tuple whose color and opacity are those of the label's
    row; the mapping is a [defaultdict(list)] and has no ["brain"] key. *)
Theorem get_tumors_keys (g : globals) (tumor_path p : string)
    (seg_data : ndarray float) (md : mapping) :
  seg_path g = Some p ->
  nib_load_get_fdata p = Ok seg_data ->
  get_tumors nib_load_get_fdata zoom marching_cubes g tumor_path = Ok md ->
  keys md = map label_name (present_labels seg_data) /\
  default_factory md = Some list_factory /\
  contains md "brain" = false /\
  forall name v,
    In (name, v) (items md) ->
    exists label color opacity vs fs,
      In (label, (name, color, opacity)) tumor_labels /\
      v = Tuple4 (vs, fs, color, opacity).
Proof.
  intros Hg Hl Hr.
  destruct (get_tumors_facts g tumor_path p seg_data md Hg Hl Hr)
    as (Hk & Hf & _ & _ & _ & Hb).
  repeat split; auto.
  - unfold contains. now rewrite Hb.
  - intros name v Hin.
    destruct (proj2 (get_tumors_result nib_load_get_fdata zoom marching_cubes
                       g tumor_path p seg_data md Hg Hl Hr) name v Hin)
      as (label & color & opacity & vs & fs & ns & vals & Hrow & _ & Hv).
    exists label, color, opacity, vs, fs. auto.
Qed.

(** X2: the mapping that [get_tumors] returns cannot be given to
    [create_3d_html] as it is: the call raises the unpacking error, with
    no layer built and no document written, and leaves an empty list
    under ["brain"] in the mapping. *)
Theorem create_3d_html_after_get_tumors (g : globals) (tumor_path : string)
    (md : mapping) :
  get_tumors nib_load_get_fdata zoom marching_cubes g tumor_path = Ok md ->
  fst (create_3d_html (html_init md))
  = Raise (ValueError "not enough values to unpack (expected 4, got 0)") /\
  html_data (snd (create_3d_html (html_init md))) = [] /\
  html_files (snd (create_3d_html (html_init md))) = [] /\
  lookup (mesh_data (snd (create_3d_html (html_init md)))) "brain"
  = Some EmptyList.
Proof.
  intros Hr.
  assert (exists p seg_data,
            seg_path g = Some p /\ nib_load_get_fdata p = Ok seg_data)
    as (p & seg_data & Hg & Hl).
  { unfold get_tumors, read_seg_path in Hr.
    destruct (seg_path g) as [p|]; [|discriminate]. cbn [rbind] in Hr.
    destruct (nib_load_get_fdata p) as [seg_data|] eqn:E; [|discriminate].
    eauto. }
  destruct (get_tumors_facts g tumor_path p seg_data md Hg Hl Hr)
    as (_ & Hf & _ & _ & _ & Hb).
  unfold create_3d_html, bind, mesh_data_getitem, getitem, html_init.
  cbn [mesh_data]. rewrite Hb, Hf. cbn.
  repeat split.
  unfold lookup in *. cbn.
  clear Hr Hf. induction (items md) as [|[k v] l IH]; [reflexivity|].
  cbn [assoc] in Hb. cbn [assoc_set assoc].
  destruct (String.eqb "brain" k) eqn:E; [discriminate Hb|].
  cbn [assoc]. rewrite E. now apply IH.
Qed.

End ExtractorFacts.

Lemma get_tumors_keys_witness :
  keys standin_tumor_data = ["Edema"; "Enhancing"] /\
  contains standin_tumor_data "brain" = false.
Proof.
  destruct (get_tumors_keys standin_load standin_zoom_keep
              standin_marching_cubes main_globals main_seg_path main_seg_path
              standin_seg standin_tumor_data eq_refl eq_refl standin_get_tumors)
    as (Hk & _ & Hb & _).
  split; [exact Hk|exact Hb].
Defined.

Lemma create_3d_html_after_get_tumors_witness :
  fst (create_3d_html (html_init standin_tumor_data))
  = Raise (ValueError "not enough values to unpack (expected 4, got 0)").
Proof.
  exact (proj1 (create_3d_html_after_get_tumors standin_load standin_zoom_keep
                  standin_marching_cubes main_globals main_seg_path
                  standin_tumor_data standin_get_tumors)).
Defined.

(** ** The order of the prims on the stage *)

Lemma defined_with_type_app (ty : string) (l1 l2 : list authored) :
  defined_with_type ty (l1 ++ l2)
  = defined_with_type ty l1 ++ defined_with_type ty l2.
Proof.
  induction l1 as [|a l1 IH]; [reflexivity|].
  destruct a; cbn [app defined_with_type]; auto.
  destruct (String.eqb type_name ty); cbn [app]; now rewrite IH.
Qed.

Lemma processed_exportable (l : list (string * value)) :
  forallb exportable (processed l) = true.
Proof.
  induction l as [|kv l IH]; [reflexivity|].
  cbn [processed]. destruct (usdc_item_error kv) eqn:E; [reflexivity|].
  cbn [forallb]. unfold exportable at 1. now rewrite E.
Qed.

Lemma first_error_exportable (l : list (string * value)) :
  first_error l = None <-> forallb exportable l = true.
Proof.
  induction l as [|kv l IH]; [tauto|].
  cbn [first_error forallb]. unfold exportable at 1.
  destruct (usdc_item_error kv); cbn [andb]; [split; discriminate|exact IH].
Qed.

Lemma exportable_specs (kv : string * value) :
  exportable kv = true ->
  exists vs fs c o rgb,
    snd kv = Tuple4 (vs, fs, c, o) /\
    color_assoc c COLOR_MAP = Some rgb /\
    specs_of kv = entry_specs (fst kv) vs fs rgb.
Proof.
  unfold exportable, usdc_item_error, specs_of.
  destruct (snd kv) as [[[[vs fs] c] o]|]; [|discriminate].
  destruct (color_assoc c COLOR_MAP) as [rgb|] eqn:E; [|discriminate].
  intros _. exists vs, fs, c, o, rgb. repeat split. exact E.
Qed.

Lemma defined_with_type_specs (l : list (string * value)) :
  forallb exportable l = true ->
  defined_with_type "Mesh" (flat_map specs_of l)
  = map mesh_path_of (map fst l) /\
  defined_with_type "Material" (flat_map specs_of l)
  = map mat_path_of (map fst l) /\
  defined_with_type "Shader" (flat_map specs_of l)
  = map shader_path_of (map fst l) /\
  defined_with_type "Xform" (flat_map specs_of l) = [].
Proof.
  induction l as [|kv l IH]; [repeat split|].
  cbn [forallb]. intros H. apply andb_prop in H as [Hkv Hl].
  destruct (IH Hl) as (I1 & I2 & I3 & I4).
  destruct (exportable_specs kv Hkv) as (vs & fs & c & o & rgb & _ & _ & Hs).
  cbn [flat_map map]. rewrite !defined_with_type_app, Hs, I1, I2, I3, I4.
  repeat split.
Qed.



(** ** When the scene-graph exporter returns *)



(** ** The document is written last *)

Lemma html_body_grows (name : string) (s : html_frame) :
  html_files (snd (html_body name s)) = html_files s /\
  exists more, html_data (snd (html_body name s)) = html_data s ++ more.
Proof.
  unfold html_body. destruct (String.eqb name "brain").
  - cbn. split; [reflexivity|]. exists []. now rewrite app_nil_r.
  - unfold bind, mesh_data_getitem.
    destruct (getitem (mesh_data s) name) as [[v|e] md'].
    + destruct v as [[[[vs fs] c] o]|]; cbn.
      * split; [reflexivity|]. eauto.
      * split; [reflexivity|]. exists []. now rewrite app_nil_r.
    + cbn. split; [reflexivity|]. exists []. now rewrite app_nil_r.
Qed.

Lemma html_loop_grows (names : list string) (first : go.Mesh3d) (s : html_frame) :
  html_files s = [] ->
  (exists rest, html_data s = first :: rest) ->
  html_files (snd (for_each names html_body s)) = [] /\
  exists rest, html_data (snd (for_each names html_body s)) = first :: rest.
Proof.
  intros Hf Hd.
  apply (for_each_keeps
           (fun s => html_files s = [] /\ exists rest, html_data s = first :: rest));
    [|auto].
  intros name s0 _ [Hf0 [rest Hd0]].
  destruct (html_body_grows name s0) as [Hf1 [more Hd1]].
  split; [congruence|]. exists (rest ++ more). rewrite Hd1, Hd0. reflexivity.
Qed.

(** X5: [create_3d_html] writes nothing unless it returns.  When it
    raises, no document has been written; when it returns, it has
    written the one document [brain_plot.html], which holds all the
    layers built, the first of them named ["brain"]. *)
Theorem create_3d_html_output (md : mapping) :
  match fst (create_3d_html (html_init md)) with
  | Ok _ =>
      html_files (snd (create_3d_html (html_init md)))
      = [("brain_plot.html",
          go.mk_Figure (html_data (snd (create_3d_html (html_init md)))))] /\
      exists first rest,
        html_data (snd (create_3d_html (html_init md))) = first :: rest /\
        go.name first = "brain"
  | Raise _ => html_files (snd (create_3d_html (html_init md))) = []
  end.
Proof.
  destruct (create_3d_html (html_init md)) as [r s] eqn:E. cbn [fst snd].
  revert E.
  unfold create_3d_html. unfold bind at 1. unfold mesh_data_getitem at 1.
  cbn [html_init mesh_data html_data html_files].
  destruct (getitem md "brain") as [[v|e] md']; [|now intros [= <- <-]].
  destruct v as [[[[vs fs] c] o]|]; [|now intros [= <- <-]].
  unfold bind at 1. unfold lift at 1. cbn [unpack4].
  unfold bind at 1. unfold data_append at 1, modify at 1.
  unfold bind at 1. unfold get at 1.
  unfold bind at 1. cbn [mesh_data html_data html_files app].
  match goal with
  | |- context [for_each ?ks html_body ?s0] =>
      destruct (html_loop_grows ks (Mesh3d_of vs fs c o "brain") s0 eq_refl
                  (ex_intro _ [] eq_refl)) as [Hf [rest Hd]];
      destruct (for_each ks html_body s0) as [[[]|e] s1]
  end; cbn in Hf, Hd |- *; intros [= <- <-]; cbn.
  - rewrite Hf, Hd. split; [reflexivity|]. eauto.
  - exact Hf.
Qed.

Lemma create_3d_html_output_witness :
  html_files (snd (create_3d_html (html_init no_brain_mapping))) = [] /\
  map fst (html_files (snd (create_3d_html (html_init demo_mapping))))
  = ["brain_plot.html"].
Proof.
  split.
  - exact (create_3d_html_output no_brain_mapping).
  - rewrite (proj1 (create_3d_html_output demo_mapping)). reflexivity.
Defined.

(** ** A failed web export and the scene-graph exporter *)

Lemma assoc_set_absent (k : string) (v : value) (l : list (string * value)) :
  assoc k l = None -> assoc_set k v l = l ++ [(k, v)].
Proof.
  induction l as [|[k' v'] l IH]; [reflexivity|].
  cbn [assoc assoc_set app]. destruct (String.eqb k k'); [discriminate|].
  intros H. now rewrite IH.
Qed.

Lemma first_error_app (l l' : list (string * value)) :
  first_error l = None -> first_error (l ++ l') = first_error l'.
Proof.
  induction l as [|kv l IH]; [reflexivity|].
  cbn [first_error app]. destruct (usdc_item_error kv); [discriminate|exact IH].
Qed.

Lemma html_missing_brain_mapping (md : mapping) :
  default_factory md = Some list_factory ->
  lookup md "brain" = None ->
  mesh_data (snd (create_3d_html (html_init md)))
  = mk_mapping (Some list_factory) (items md ++ [("brain", EmptyList)]).
Proof.
  intros Hf Hb.
  unfold create_3d_html, bind, mesh_data_getitem, getitem, html_init.
  cbn [mesh_data]. rewrite Hb, Hf. cbn. unfold setitem. rewrite Hf.
  now rewrite (assoc_set_absent _ _ _ Hb).
Qed.

(** X6: a [defaultdict(list)] without a ["brain"] key that the
    scene-graph exporter would accept is no longer accepted once
    [create_3d_html] has been tried on it.  The failed call leaves the
    mapping with an empty list appended under ["brain"]; on that mapping
    [create_usdc_with_materials] goes through the former slots, then
    raises the unpacking error and saves nothing. *)
Theorem failed_web_export_breaks_usdc (filename : string) (md : mapping) :
  default_factory md = Some list_factory ->
  contains md "brain" = false ->
  forallb exportable (items md) = true ->
  fst (create_usdc_with_materials filename (usd_init md)) = Ok tt /\
  mesh_data (snd (create_3d_html (html_init md)))
  = mk_mapping (Some list_factory) (items md ++ [("brain", EmptyList)]) /\
  fst (create_usdc_with_materials filename
         (usd_init (mesh_data (snd (create_3d_html (html_init md))))))
  = Raise (ValueError "not enough values to unpack (expected 4, got 0)") /\
  usdc_saved filename (mesh_data (snd (create_3d_html (html_init md)))) = false /\
  usdc_layer filename (mesh_data (snd (create_3d_html (html_init md))))
  = usdc_layer filename md.
Proof.
  intros Hf Hb He. apply contains_false_lookup in Hb.
  apply first_error_exportable in He.
  rewrite (html_missing_brain_mapping md Hf Hb).
  unfold usdc_saved. rewrite !usdc_layer_eq, !create_usdc_run.
  cbn [fst snd stage saved items].
  rewrite (first_error_app _ [("brain", EmptyList)] He), He. cbn.
  repeat split.
  do 2 f_equal.
  rewrite (processed_all _ He).
  clear Hb. induction (items md) as [|kv l IH]; [reflexivity|].
  cbn [app processed first_error] in He |- *.
  destruct (usdc_item_error kv); [discriminate|].
  cbn [flat_map]. f_equal. now apply IH.
Qed.

Lemma failed_web_export_breaks_usdc_witness :
  fst (create_usdc_with_materials main_usdc_path (usd_init no_brain_mapping))
  = Ok tt /\
  fst (create_usdc_with_materials main_usdc_path
         (usd_init (mesh_data (snd (create_3d_html (html_init no_brain_mapping))))))
  = Raise (ValueError "not enough values to unpack (expected 4, got 0)").
Proof.
  destruct (failed_web_export_breaks_usdc main_usdc_path no_brain_mapping
              eq_refl eq_refl eq_refl) as (H1 & _ & H3 & _).
  split; [exact H1|exact H3].
Defined.

(** ** The whole script *)

Lemma create_3d_html_run (md : mapping) (vs : list vertex) (fs : list face)
    (c : string) (o : float) :
  all_entries md = true ->
  distinct (keys md) = true ->
  lookup md "brain" = Some (Tuple4 (vs, fs, c, o)) ->
  create_3d_html (html_init md)
  = (Ok tt,
     mk_html_frame md (Mesh3d_of vs fs c o "brain" :: other_layers md)
       [("brain_plot.html",
         go.mk_Figure (Mesh3d_of vs fs c o "brain" :: other_layers md))]).
Proof.
  intros Hall Hd Hb.
  unfold create_3d_html. unfold bind at 1.
  rewrite (mesh_data_getitem_present (html_init md) "brain" _ Hb).
  unfold bind at 1. unfold lift at 1. cbn [unpack4].
  unfold bind at 1. unfold data_append at 1, modify at 1.
  unfold bind at 1. unfold get at 1.
  unfold bind at 1. cbn [html_init mesh_data html_data html_files app].
  unfold keys.
  rewrite (html_loop_layers md (items md) Hall Hd (incl_refl _)).
  reflexivity.
Qed.

Section ScriptFacts.

Variable nib_load_get_fdata : string -> result (ndarray float).
Variable zoom : ndarray float -> float -> result (ndarray float).
Variable marching_cubes : volume -> float -> result mc_result.
Variable threshold_otsu : ndarray float -> result float.

Lemma main_mesh_data_facts (md : mapping) :
  main_mesh_data nib_load_get_fdata zoom marching_cubes threshold_otsu = Ok md ->
  exists seg_data vs fs,
    nib_load_get_fdata main_seg_path = Ok seg_data /\
    keys md = map label_name (present_labels seg_data) ++ ["brain"] /\
    lookup md "brain" = Some (Tuple4 (vs, fs, "pink", 0.2%float)) /\
    default_factory md = Some list_factory /\
    all_entries md = true /\
    distinct (keys md) = true /\
    forallb exportable (items md) = true.
Proof.
  unfold main_mesh_data, get_tumors, main_globals, read_seg_path.
  cbn [seg_path rbind].
  destruct (nib_load_get_fdata main_seg_path) as [seg_data|] eqn:El;
    [|discriminate].
  cbn [rbind].
  unfold present_labels, tumor_labels. cbn [fold_result filter fst].
  unfold get_tumors_step.
  destruct (np_sum (label_mask seg_data 1) =? 0)%Z eqn:E1;
    [|destruct (tumor_surface zoom marching_cubes (label_mask seg_data 1))
        as [[[[v1 f1] n1] w1]|e1] eqn:S1; [|discriminate]];
    cbn [rbind];
    (destruct (np_sum (label_mask seg_data 2) =? 0)%Z eqn:E2;
     [|destruct (tumor_surface zoom marching_cubes (label_mask seg_data 2))
         as [[[[v2 f2] n2] w2]|e2] eqn:S2; [|discriminate]]);
    cbn [rbind];
    (destruct (np_sum (label_mask seg_data 3) =? 0)%Z eqn:E3;
     [|destruct (tumor_surface zoom marching_cubes (label_mask seg_data 3))
         as [[[[v3 f3] n3] w3]|e3] eqn:S3; [|discriminate]]);
    cbn [rbind];
    (destruct (nib_load_get_fdata main_mri_path) as [mri|]; [|discriminate]);
    cbn [rbind];
    (destruct (index_last_axis4 mri 3) as [mri_data|]; [|discriminate]);
    cbn [rbind];
    (destruct (threshold_otsu mri_data) as [thr|]; [|discriminate]);
    cbn [rbind];
    (destruct (brain_surface zoom marching_cubes (array_gt_scalar mri_data thr))
       as [[[[vb fb] nb] wb]|]; [|discriminate]);
    cbn [rbind];
    intros [= <-]; exists seg_data, vb, fb; rewrite ?E1, ?E2, ?E3;
    repeat split.
Qed.

(** X7: once the mapping is built (lines 128-141 return), the rest of
    the script cannot raise.  The web exporter writes [brain_plot.html]
    with the brain layer first and one layer for each tumor entry after
    it; the scene-graph exporter saves the stage [brain_with_tumor.usdc]
    with the meshes in dict order, which puts ["brain"] last; and the
    mapping is, after both, the one that was built. *)
Theorem main_returns (md : mapping) :
  main_mesh_data nib_load_get_fdata zoom marching_cubes threshold_otsu = Ok md ->
  exists seg_data vs fs st,
    nib_load_get_fdata main_seg_path = Ok seg_data /\
    lookup md "brain" = Some (Tuple4 (vs, fs, "pink", 0.2%float)) /\
    main nib_load_get_fdata zoom marching_cubes threshold_otsu
    = Ok ([("brain_plot.html",
            go.mk_Figure (Mesh3d_of vs fs "pink" 0.2%float "brain"
                          :: other_layers md))],
          Some st, md) /\
    identifier st = "brain_with_tumor.usdc" /\
    saved st = true /\
    defined_with_type "Mesh" (root_layer st)
    = map mesh_path_of
        (map label_name (present_labels seg_data) ++ ["brain"]).
Proof.
  intros Hm.
  destruct (main_mesh_data_facts md Hm)
    as (seg_data & vs & fs & Hl & Hk & Hb & Hf & Hall & Hd & He).
  exists seg_data, vs, fs.
  unfold main. rewrite Hm. cbn [rbind].
  rewrite (create_3d_html_run md vs fs "pink" 0.2%float Hall Hd Hb).
  cbn [fst snd rbind mesh_data html_files].
  rewrite create_usdc_run.
  pose proof (proj2 (first_error_exportable (items md)) He) as Hn.
  rewrite Hn. cbn [outcome fst snd rbind stage mesh_data_dict].
  eexists. split; [exact Hl|]. split; [exact Hb|]. split; [reflexivity|].
  cbn [identifier saved root_layer]. repeat split.
  rewrite (processed_all _ Hn).
  cbn [defined_with_type String.eqb Ascii.eqb Bool.eqb].
  rewrite (proj1 (defined_with_type_specs _ He)).
  fold (keys md). now rewrite Hk.
Qed.

End ScriptFacts.

Lemma main_returns_witness :
  exists st,
    main standin_load standin_zoom_keep standin_marching_cubes standin_threshold
    = Ok ([("brain_plot.html",
            go.mk_Figure
              [ Mesh3d_of tri_verts tri_faces "pink" 0.2%float "brain";
                Mesh3d_of tri_verts tri_faces "yellow" 0.3%float "Edema";
                Mesh3d_of tri_verts tri_faces "lightblue" 0.3%float "Enhancing" ])],
          Some st,
          setitem standin_tumor_data "brain"
            (Tuple4 (tri_verts, tri_faces, "pink", 0.2%float))) /\
    defined_with_type "Mesh" (root_layer st)
    = ["/World/Edema"; "/World/Enhancing"; "/World/brain"].
Proof.
  destruct (main_returns standin_load standin_zoom_keep standin_marching_cubes
              standin_threshold
              (setitem standin_tumor_data "brain"
                 (Tuple4 (tri_verts, tri_faces, "pink", 0.2%float))))
    as (seg_data & vs & fs & st & Hl & Hb & Hmain & _ & _ & Hmesh).
  { vm_compute. reflexivity. }
  injection Hl as <-. injection Hb as <- <-.
  exists st. split; [exact Hmain|].
  rewrite Hmesh. vm_compute. reflexivity.
Defined.

(** ** Points and normals on the stage *)

Lemma in_entry_specs_normals (name : string) (vs : list vertex) (fs : list face)
    (rgb : float * float * float) (path : string) (l : list Gf.Vec3f) :
  In (SetAttr path "normals" (Normal3fArray l)) (entry_specs name vs fs rgb) ->
  path = mesh_path_of name /\
  l = repeat (Gf.mk_Vec3f 0 0 1) (List.length vs).
Proof.
  intros H. spec_cases H.
  injection H as <- <-. split; reflexivity.
Qed.

Lemma in_entry_specs_points (name : string) (vs : list vertex) (fs : list face)
    (rgb : float * float * float) (path : string) (l : list Gf.Vec3f) :
  In (SetAttr path "points" (Point3fArray l)) (entry_specs name vs fs rgb) ->
  path = mesh_path_of name /\ l = map Vec3f_of_vertex vs.
Proof.
  intros H. spec_cases H.
  injection H as <- <-. split; reflexivity.
Qed.

Lemma repeat_all {A} (a : A) (n : nat) : Forall (fun b => b = a) (repeat a n).
Proof. induction n; simpl; constructor; auto. Qed.

(** X8: the normals authored for a mesh are not computed from its
    geometry: every normals list on the stage is the vector (0, 0, 1)
    repeated once per vertex of an entry of the mapping, it stands
    beside the points of that entry (its vertices, in order, as
    [Gf.Vec3f]), and its interpolation is ["vertex"]; every points list
    on the stage is that of an entry. *)
Theorem usdc_points_normals (filename : string) (md : mapping) :
  (forall path l,
     In (SetAttr path "normals" (Normal3fArray l)) (usdc_layer filename md) ->
     Forall (fun n => n = Gf.mk_Vec3f 0 0 1) l /\
     exists name vs fs c o,
       In (name, Tuple4 (vs, fs, c, o)) (items md) /\
       path = mesh_path_of name /\
       List.length l = List.length vs /\
       In (SetAttr path "points" (Point3fArray (map Vec3f_of_vertex vs)))
          (usdc_layer filename md) /\
       In (SetAttr path "normals:interpolation" (Token "vertex"))
          (usdc_layer filename md)) /\
  (forall path l,
     In (SetAttr path "points" (Point3fArray l)) (usdc_layer filename md) ->
     exists name vs fs c o,
       In (name, Tuple4 (vs, fs, c, o)) (items md) /\
       path = mesh_path_of name /\
       l = map Vec3f_of_vertex vs /\
       List.length l = List.length vs).
Proof.
  split.
  - intros path l H.
    destruct (in_layer_inv _ _ _ H)
      as [Hw|(name & vs & fs & c & o & rgb & Hin & Hc & Ha & Hincl)];
      [discriminate|].
    apply in_entry_specs_normals in Ha as [-> ->].
    split; [apply repeat_all|].
    exists name, vs, fs, c, o. rewrite repeat_length.
    repeat split; auto; apply Hincl; unfold entry_specs; cbn [In]; auto 8.
  - intros path l H.
    destruct (in_layer_inv _ _ _ H)
      as [Hw|(name & vs & fs & c & o & rgb & Hin & Hc & Ha & Hincl)];
      [discriminate|].
    apply in_entry_specs_points in Ha as [-> ->].
    exists name, vs, fs, c, o. rewrite length_map. repeat split; auto.
Qed.

Lemma usdc_points_normals_witness :
  In (SetAttr "/World/brain" "normals"
        (Normal3fArray (repeat (Gf.mk_Vec3f 0 0 1) 4)))
     (usdc_layer main_usdc_path demo_mapping) /\
  Forall (fun n => n = Gf.mk_Vec3f 0 0 1) (repeat (Gf.mk_Vec3f 0 0 1) 4).
Proof.
  assert (In (SetAttr "/World/brain" "normals"
                (Normal3fArray (repeat (Gf.mk_Vec3f 0 0 1) 4)))
             (usdc_layer main_usdc_path demo_mapping)) as Hin.
  { cbv. auto 30. }
  split; [exact Hin|].
  exact (proj1 (proj1 (usdc_points_normals main_usdc_path demo_mapping) _ _ Hin)).
Defined.

(** ** Materials and their binding *)

Lemma in_entry_specs_bind (name : string) (vs : list vertex) (fs : list face)
    (rgb : float * float * float) (prim mat : string) :
  In (Bind prim mat) (entry_specs name vs fs rgb) ->
  prim = mesh_path_of name /\ mat = mat_path_of name.
Proof.
  intros H. spec_cases H.
  injection H as <- <-. split; reflexivity.
Qed.

Lemma mesh_path_of_inj (n1 n2 : string) :
  mesh_path_of n1 = mesh_path_of n2 -> n1 = n2.
Proof. unfold mesh_path_of. simpl. now intros [= ->]. Qed.

Lemma mat_path_of_inj (n1 n2 : string) :
  mat_path_of n1 = mat_path_of n2 -> n1 = n2.
Proof.
  unfold mat_path_of. simpl. intros H.
  injection H as H. now apply string_append_cancel_r in H.
Qed.

(** X9: every binding on the stage binds the mesh of an entry of the
    mapping to the material of the same entry, which is defined on the
    stage and whose surface output is connected to the surface output of
    that entry's own preview-surface shader.  A mesh is bound to one
    material only and a material to one mesh only. *)
Theorem usdc_material_binding (filename : string) (md : mapping) :
  (forall prim mat,
     In (Bind prim mat) (usdc_layer filename md) ->
     exists name vs fs c o,
       In (name, Tuple4 (vs, fs, c, o)) (items md) /\
       prim = mesh_path_of name /\
       mat = mat_path_of name /\
       In (Define prim "Mesh") (usdc_layer filename md) /\
       In (Define mat "Material") (usdc_layer filename md) /\
       In (Define (shader_path_of name) "Shader") (usdc_layer filename md) /\
       In (SetAttr (shader_path_of name) "info:id" (Token "UsdPreviewSurface"))
          (usdc_layer filename md) /\
       In (ConnectToSource mat "surface" (shader_path_of name) "surface")
          (usdc_layer filename md)) /\
  (forall prim1 prim2 mat1 mat2,
     In (Bind prim1 mat1) (usdc_layer filename md) ->
     In (Bind prim2 mat2) (usdc_layer filename md) ->
     (prim1 = prim2 <-> mat1 = mat2)).
Proof.
  assert (forall prim mat,
            In (Bind prim mat) (usdc_layer filename md) ->
            exists name rgb vs fs c o,
              In (name, Tuple4 (vs, fs, c, o)) (items md) /\
              prim = mesh_path_of name /\ mat = mat_path_of name /\
              incl (entry_specs name vs fs rgb) (usdc_layer filename md)) as Hb.
  { intros prim mat H.
    destruct (in_layer_inv _ _ _ H)
      as [Hw|(name & vs & fs & c & o & rgb & Hin & Hc & Ha & Hincl)];
      [discriminate|].
    apply in_entry_specs_bind in Ha as [-> ->].
    exists name, rgb, vs, fs, c, o. auto. }
  split.
  - intros prim mat H.
    destruct (Hb _ _ H) as (name & rgb & vs & fs & c & o & Hin & -> & -> & Hincl).
    exists name, vs, fs, c, o.
    repeat split; auto; apply Hincl; unfold entry_specs; cbn [In]; auto 20.
  - intros prim1 prim2 mat1 mat2 H1 H2.
    destruct (Hb _ _ H1) as (n1 & ? & ? & ? & ? & ? & _ & -> & -> & _).
    destruct (Hb _ _ H2) as (n2 & ? & ? & ? & ? & ? & _ & -> & -> & _).
    split; intros H.
    + apply mesh_path_of_inj in H. now subst.
    + apply mat_path_of_inj in H. now subst.
Qed.

Lemma usdc_material_binding_witness :
  In (Bind "/World/brain" "/Materials/brainMat")
     (usdc_layer main_usdc_path demo_mapping) /\
  In (ConnectToSource "/Materials/brainMat" "surface"
        "/Materials/brainMat/Shader" "surface")
     (usdc_layer main_usdc_path demo_mapping).
Proof.
  assert (In (Bind "/World/brain" "/Materials/brainMat")
             (usdc_layer main_usdc_path demo_mapping)) as Hin.
  { cbv. auto 40. }
  split; [exact Hin|].
  destruct (proj1 (usdc_material_binding main_usdc_path demo_mapping) _ _ Hin)
    as (name & vs & fs & c & o & _ & Hp & Hm & _ & _ & _ & _ & Hc).
  apply mesh_path_of_inj in Hp. subst name. exact Hc.
Defined.

(** ** No prim is defined twice *)

Lemma distinct_NoDup (l : list string) : distinct l = true -> NoDup l.
Proof.
  induction l as [|k l IH]; [constructor|].
  cbn [distinct]. intros H. apply andb_prop in H as [Hn Hd].
  constructor; [|auto].
  intros Hin. apply existsb_eqb_in in Hin. apply negb_true_iff in Hn. congruence.
Qed.

Lemma processed_keys_NoDup (l : list (string * value)) :
  NoDup (map fst l) -> NoDup (map fst (processed l)).
Proof.
  induction l as [|kv l IH]; [auto|].
  cbn [map processed]. intros H. apply NoDup_cons_iff in H as [Hn Hd].
  destruct (usdc_item_error kv); [constructor|].
  cbn [map]. constructor; [|auto].
  intros Hin. apply Hn. apply in_map_iff in Hin as (x & Hx & Hin).
  apply in_map_iff. exists x. split; [assumption|].
  now apply processed_incl.
Qed.

Lemma defined_paths_app (l1 l2 : list authored) :
  defined_paths (l1 ++ l2) = defined_paths l1 ++ defined_paths l2.
Proof.
  induction l1 as [|a l1 IH]; [reflexivity|].
  destruct a; cbn [app defined_paths]; auto. now rewrite IH.
Qed.

Lemma defined_paths_specs (l : list (string * value)) :
  forallb exportable l = true ->
  defined_paths (flat_map specs_of l) = flat_map entry_paths (map fst l).
Proof.
  induction l as [|kv l IH]; [reflexivity|].
  cbn [forallb]. intros H. apply andb_prop in H as [Hkv Hl].
  destruct (exportable_specs kv Hkv) as (vs & fs & c & o & rgb & _ & _ & Hs).
  cbn [flat_map map]. rewrite defined_paths_app, Hs, (IH Hl). reflexivity.
Qed.

Lemma string_append_nil (a s : string) :
  (a ++ s)%string = EmptyString -> s = EmptyString.
Proof. destruct a; simpl; [auto|discriminate]. Qed.

Lemma last_ascii_app (a s : string) :
  s <> EmptyString -> last_ascii (a ++ s)%string = last_ascii s.
Proof.
  intros Hs. induction a as [|c a IH]; [reflexivity|].
  cbn [String.append last_ascii].
  destruct (a ++ s)%string eqn:E; [|exact IH].
  apply string_append_nil in E. contradiction.
Qed.

Lemma mat_path_not_shader_path (n1 n2 : string) :
  mat_path_of n1 <> shader_path_of n2.
Proof.
  unfold mat_path_of, shader_path_of. intros H.
  apply (f_equal last_ascii) in H.
  rewrite !last_ascii_app in H; try discriminate.
  - intros E. apply string_append_nil in E. discriminate.
  - intros E. apply string_append_nil in E. discriminate.
Qed.

Lemma entry_paths_owner (p n1 n2 : string) :
  In p (entry_paths n1) -> In p (entry_paths n2) -> n1 = n2.
Proof.
  unfold entry_paths. cbn [In].
  intros [H1|[H1|[H1|[]]]] [H2|[H2|[H2|[]]]]; subst p.
  - now apply mesh_path_of_inj.
  - discriminate H2.
  - discriminate H2.
  - discriminate H2.
  - now apply mat_path_of_inj.
  - symmetry in H2. now apply mat_path_not_shader_path in H2.
  - discriminate H2.
  - now apply mat_path_not_shader_path in H2.
  - now apply shader_path_of_inj.
Qed.

Lemma entry_paths_NoDup (n : string) : NoDup (entry_paths n).
Proof.
  unfold entry_paths. repeat constructor; cbn [In].
  - intros [H|[H|[]]]; discriminate H.
  - intros [H|[]]. symmetry in H. now apply mat_path_not_shader_path in H.
  - tauto.
Qed.

Lemma world_not_entry_path (n : string) : ~ In "/World" (entry_paths n).
Proof.
  unfold entry_paths. cbn [In]. intros [H|[H|[H|[]]]]; discriminate H.
Qed.

Lemma flat_map_entry_paths_NoDup (names : list string) :
  NoDup names -> NoDup (flat_map entry_paths names).
Proof.
  induction names as [|n l IH]; [constructor|].
  intros H. apply NoDup_cons_iff in H as [Hn Hd].
  cbn [flat_map]. apply NoDup_app; [apply entry_paths_NoDup|auto|].
  intros p Hp Hin. apply in_flat_map in Hin as (n' & Hn' & Hp').
  rewrite (entry_paths_owner p n n' Hp Hp') in Hn. contradiction.
Qed.

(** X10: when the keys of the mapping are distinct (they are those of a
    dict), no prim path is defined twice on the stage, whatever the
    names are: the root, and the mesh, the material and the shader of
    every entry the loop gets through all have different paths. *)
Theorem usdc_defined_paths_distinct (filename : string) (md : mapping) :
  distinct (keys md) = true ->
  NoDup (defined_paths (usdc_layer filename md)) /\
  defined_paths (usdc_layer filename md)
  = "/World" :: flat_map entry_paths (map fst (processed (items md))).
Proof.
  intros Hd. rewrite usdc_layer_eq. cbn [defined_paths].
  rewrite (defined_paths_specs _ (processed_exportable (items md))).
  split; [|reflexivity].
  constructor.
  - intros Hin. apply in_flat_map in Hin as (n & _ & Hn).
    now apply world_not_entry_path in Hn.
  - apply flat_map_entry_paths_NoDup, processed_keys_NoDup.
    now apply distinct_NoDup.
Qed.

Lemma usdc_defined_paths_distinct_witness :
  distinct (keys demo_mapping) = true /\
  NoDup (defined_paths (usdc_layer main_usdc_path demo_mapping)) /\
  defined_paths (usdc_layer main_usdc_path demo_mapping)
  = [ "/World";
      "/World/Edema"; "/Materials/EdemaMat"; "/Materials/EdemaMat/Shader";
      "/World/brain"; "/Materials/brainMat"; "/Materials/brainMat/Shader" ].
Proof.
  split; [reflexivity|].
  exact (usdc_defined_paths_distinct main_usdc_path demo_mapping eq_refl).
Defined.

(** ** The channel taken from the intensity volume *)





(** ** An empty mask *)

Lemma mask_sum_count (l : list float) (x : float) :
  fold_right Z.add 0%Z (map bool_to_uint8 (map (fun y => PrimFloat.eqb y x) l))
  = Z.of_nat (List.length (filter (fun y => PrimFloat.eqb y x) l)).
Proof.
  induction l as [|y l IH]; [reflexivity|].
  cbn [map fold_right filter]. rewrite IH.
  destruct (PrimFloat.eqb y x); cbn [bool_to_uint8 List.length]; lia.
Qed.

(** X12: for a volume of fewer than 2^64 voxels, the sum that
    [get_tumors] tests is the number of voxels equal to the label, so a
    label is skipped exactly when no voxel of the segmentation equals
    it; the mask has the shape of the segmentation and holds only 0 and
    1. *)
Theorem label_mask_sum (seg_data : ndarray float) (label : Z) :
  (Z.of_nat (List.length (data seg_data)) < 2 ^ 64)%Z ->
  np_sum (label_mask seg_data label)
  = Z.of_nat (List.length
                (filter (fun x => PrimFloat.eqb x (float_of_Z label))
                        (data seg_data))) /\
  (np_sum (label_mask seg_data label) = 0%Z <->
   Forall (fun x => PrimFloat.eqb x (float_of_Z label) = false) (data seg_data)) /\
  shape (label_mask seg_data label) = shape seg_data /\
  Forall (fun v => v = 0%Z \/ v = 1%Z) (data (label_mask seg_data label)).
Proof.
  intros Hlen.
  assert (np_sum (label_mask seg_data label)
          = Z.of_nat (List.length
                        (filter (fun x => PrimFloat.eqb x (float_of_Z label))
                                (data seg_data)))) as Hsum.
  { unfold np_sum, label_mask, array_eq_scalar, amap. cbn [data].
    rewrite mask_sum_count. apply Z.mod_small.
    pose proof (filter_length_le
                  (fun x => PrimFloat.eqb x (float_of_Z label)) (data seg_data)).
    lia. }
  split; [exact Hsum|]. split; [|split].
  - rewrite Hsum. split.
    + intros H. apply Forall_forall. intros x Hx.
      destruct (PrimFloat.eqb x (float_of_Z label)) eqn:E; [|reflexivity].
      assert (In x (filter (fun x => PrimFloat.eqb x (float_of_Z label))
                           (data seg_data))) as Hin
        by (apply filter_In; auto).
      destruct (filter _ (data seg_data)); [contradiction|]. cbn in H. lia.
    + intros H.
      destruct (filter (fun x => PrimFloat.eqb x (float_of_Z label))
                       (data seg_data)) as [|x l] eqn:E; [reflexivity|].
      assert (In x (x :: l)) as Hin by now left.
      rewrite <- E in Hin. apply filter_In in Hin as [Hin Hx].
      rewrite Forall_forall in H. rewrite (H x Hin) in Hx. discriminate.
  - reflexivity.
  - unfold label_mask, array_eq_scalar, amap. cbn [data].
    rewrite map_map. apply Forall_forall. intros v Hv.
    apply in_map_iff in Hv as (x & <- & _).
    destruct (PrimFloat.eqb x (float_of_Z label)); cbn; auto.
Qed.

Lemma label_mask_sum_witness :
  np_sum (label_mask standin_seg 2) = 0%Z /\
  Forall (fun x => PrimFloat.eqb x (float_of_Z 2) = false) (data standin_seg).
Proof.
  assert (np_sum (label_mask standin_seg 2) = 0%Z) as H by reflexivity.
  split; [exact H|].
  apply (proj1 (proj1 (proj2 (label_mask_sum standin_seg 2 eq_refl))) H).
Defined.

(** ** Geometry as it is authored *)




(** ** When the extractor returns *)

Section ExtractorOutcome.

Variable nib_load_get_fdata : string -> result (ndarray float).
Variable zoom : ndarray float -> float -> result (ndarray float).
Variable marching_cubes : volume -> float -> result mc_result.

(** X14: [get_tumors] catches nothing.  It returns exactly when the
    global [seg_path] is bound, the file loads, and the surface
    extraction returns for every label whose mask is not empty.
    Otherwise it raises the name error of the unbound global, the
    loader's exception, or the exception of the extraction of a label
    present in the segmentation, and gives no mapping at all. *)
Theorem get_tumors_returns_iff (g : globals) (tumor_path : string) :
  ((exists md,
      get_tumors nib_load_get_fdata zoom marching_cubes g tumor_path = Ok md) <->
   (exists p seg_data,
      seg_path g = Some p /\
      nib_load_get_fdata p = Ok seg_data /\
      Forall (fun item =>
                exists s,
                  tumor_surface zoom marching_cubes
                    (label_mask seg_data (fst item)) = Ok s)
             (present_labels seg_data))) /\
  (forall e,
     get_tumors nib_load_get_fdata zoom marching_cubes g tumor_path = Raise e ->
     (seg_path g = None /\ e = NameError "seg_path") \/
     (exists p, seg_path g = Some p /\ nib_load_get_fdata p = Raise e) \/
     (exists p seg_data label name color opacity,
        seg_path g = Some p /\
        nib_load_get_fdata p = Ok seg_data /\
        In (label, (name, color, opacity)) (present_labels seg_data) /\
        tumor_surface zoom marching_cubes (label_mask seg_data label) = Raise e)).
Proof.
  unfold get_tumors, read_seg_path.
  destruct (seg_path g) as [p|] eqn:Eg; cbn [rbind].
  2:{ split.
      - split; [intros [md H]; discriminate H|].
        intros (p & s & H & _). discriminate H.
      - intros e [= <-]. left. auto. }
  destruct (nib_load_get_fdata p) as [seg_data|e0] eqn:El; cbn [rbind].
  2:{ split.
      - split; [intros [md H]; discriminate H|].
        intros (p' & s & [= <-] & H & _). rewrite El in H. discriminate H.
      - intros e [= <-]. right. left. eauto. }
  unfold present_labels, tumor_labels. cbn [fold_result filter fst].
  unfold get_tumors_step.
  destruct (np_sum (label_mask seg_data 1) =? 0)%Z eqn:E1;
    [|destruct (tumor_surface zoom marching_cubes (label_mask seg_data 1))
        as [[[[v1 f1] n1] w1]|e1] eqn:S1];
    cbn [rbind];
    try (destruct (np_sum (label_mask seg_data 2) =? 0)%Z eqn:E2;
         [|destruct (tumor_surface zoom marching_cubes (label_mask seg_data 2))
             as [[[[v2 f2] n2] w2]|e2] eqn:S2]);
    cbn [rbind];
    try (destruct (np_sum (label_mask seg_data 3) =? 0)%Z eqn:E3;
         [|destruct (tumor_surface zoom marching_cubes (label_mask seg_data 3))
             as [[[[v3 f3] n3] w3]|e3] eqn:S3]);
    cbn [rbind];
    (split;
     [ split;
       [ intros [md H]; try discriminate H;
         exists p, seg_data; rewrite ?E1, ?E2, ?E3; cbn [negb];
         repeat split; repeat constructor; cbn [fst]; eauto
       | intros (p' & seg' & Hp & Hs & HF);
         injection Hp as <-; rewrite El in Hs; injection Hs as <-;
         rewrite ?E1, ?E2, ?E3 in HF; cbn [negb] in HF;
         repeat (apply Forall_cons_iff in HF; destruct HF as [[? ?] HF]);
         cbn [fst] in *; first [eexists; reflexivity | congruence] ]
     | intros e H;
       first
         [ discriminate H
         | injection H as <-;
           right; right; exists p, seg_data;
           eexists _, _, _, _; rewrite ?E1, ?E2, ?E3; cbn [negb];
           split; [reflexivity|]; split; [exact El|];
           split; [|eassumption]; cbn [In]; eauto 6 ] ]).
Qed.

End ExtractorOutcome.

Lemma get_tumors_returns_iff_witness :
  exists md,
    get_tumors standin_load standin_zoom_keep standin_marching_cubes
      main_globals main_seg_path = Ok md.
Proof.
  apply (proj1 (get_tumors_returns_iff standin_load standin_zoom_keep
                  standin_marching_cubes main_globals main_seg_path)).
  exists main_seg_path, standin_seg.
  split; [reflexivity|]. split; [reflexivity|].
  repeat constructor; eexists; vm_compute; reflexivity.
Defined.

(** ** When the web exporter returns *)



